(** * The M-PESA relay (index.js): a shallow embedding and its properties

    The relay is one Express application: [getAccessToken], the
    [POST /api/pay] handler with its local [normalizePhone], and
    [GET /api/token].  Strings are sequences of UTF-16 code units, request
    fields are JSON primitives, and the handlers run in a small monad that
    threads the record of outbound HTTP exchanges, the console and the clock
    and in which a JavaScript exception is a result of its own. *)

From Stdlib Require Import List NArith ZArith Bool Lia.
From Stdlib Require Import Strings.String Strings.Ascii Numbers.DecimalString.
Import ListNotations.

Set Implicit Arguments.

(** ** Strings *)

(** A JavaScript string: its UTF-16 code units. *)
Definition jsstring := list N.

(** The code unit of an ASCII character, and the string of a literal. *)
Definition ch (a : ascii) : N := N_of_ascii a.
Definition lit (s : string) : jsstring := map ch (list_ascii_of_string s).

(** [WhiteSpace] and [LineTerminator] of ECMAScript: what [String.prototype.trim]
    removes and what the class [\s] matches. *)
Definition is_space (c : N) : bool :=
  ((9 <=? c) && (c <=? 13) || (c =? 32) || (c =? 160) || (c =? 5760)
   || (8192 <=? c) && (c <=? 8202) || (c =? 8232) || (c =? 8233)
   || (c =? 8239) || (c =? 8287) || (c =? 12288) || (c =? 65279))%N.

(** [\d] *)
Definition is_digit (c : N) : bool := ((48 <=? c) && (c <=? 57))%N.

Fixpoint trimStart (s : jsstring) : jsstring :=
  match s with
  | c :: t => if is_space c then trimStart t else s
  | [] => []
  end.

(** [s.trim()] *)
Definition trim (s : jsstring) : jsstring := rev (trimStart (rev (trimStart s))).

(** [s.replace(/\s+/g, "")]: every run of white space is replaced by nothing. *)
Definition remove_spaces (s : jsstring) : jsstring :=
  filter (fun c => negb (is_space c)) s.

Fixpoint str_eqb (a b : jsstring) : bool :=
  match a, b with
  | [], [] => true
  | x :: a', y :: b' => (x =? y)%N && str_eqb a' b'
  | _, _ => false
  end.

(** [s.startsWith(p)] *)
Fixpoint startsWith (p s : jsstring) : bool :=
  match p, s with
  | [], _ => true
  | x :: p', y :: s' => (x =? y)%N && startsWith p' s'
  | _ :: _, [] => false
  end.

(** [s.slice(1)] *)
Definition slice1 (s : jsstring) : jsstring := tl s.

(** [/^7\d{8}$/.test(s)]: without the [m] flag [$] is the end of the input. *)
Definition short_kenyan (s : jsstring) : bool :=
  match s with
  | c :: t => (c =? ch "7")%N && (List.length t =? 8)%nat && forallb is_digit t
  | [] => false
  end.

(** The letters a-z of a code unit in upper case, every other code unit as
    it is: the canonicalisation of a regular expression with the [i] flag
    and without the [u] flag, which maps no code unit from 128 on to one
    below 128. *)
Definition upcase (c : N) : N :=
  if ((97 <=? c) && (c <=? 122))%N then (c - 32)%N else c.

Fixpoint startsWith_ci (p s : jsstring) : bool :=
  match p, s with
  | [], _ => true
  | x :: p', y :: s' => (upcase x =? upcase y)%N && startsWith_ci p' s'
  | _ :: _, [] => false
  end.

(** [new RegExp(p, "i").test(s)] for a pattern [p] of plain characters. *)
Fixpoint test_ci (p s : jsstring) : bool :=
  startsWith_ci p s ||
  match s with
  | [] => false
  | _ :: t => test_ci p t
  end.

(** ** Numbers and values *)

(** What the program observes of a JavaScript number: its truth value
    ([false] at [+0], [-0] and [NaN]) and its string ([Number::toString]). *)
Class JsNumber (number : Type) : Type := {
  number_truthy : number -> bool;
  number_to_string : number -> jsstring
}.

(** The integers, in decimal notation: what [Number::toString] writes for
    the safe integers, those below [2^53] in absolute value.  Larger
    integers are not all numbers of JavaScript; the instance serves for
    examples at small integers, the theorems hold for every instance. *)
#[export] Instance integer_numbers : JsNumber Z := {
  number_truthy z := negb (z =? 0)%Z;
  number_to_string z := lit (NilZero.string_of_int (Z.to_int z))
}.

Section Relay.

Context {number : Type} {numbers : JsNumber number}.

(** A field of a parsed JSON body, at the primitives: absent, [null], a
    boolean, a number or a string.  A field that is itself an array or an
    object is outside the model (an array has a [slice] of its own, and the
    string of an object can throw); the properties below speak of
    primitive fields. *)
Inductive value : Type :=
| VUndefined
| VNull
| VBool (b : bool)
| VNum (n : number)
| VStr (s : jsstring).

(** [ToBoolean] *)
Definition truthy (v : value) : bool :=
  match v with
  | VUndefined | VNull => false
  | VBool b => b
  | VNum n => number_truthy n
  | VStr s => negb (str_eqb s [])
  end.

(** [String(v)] *)
Definition ToString (v : value) : jsstring :=
  match v with
  | VUndefined => lit "undefined"
  | VNull => lit "null"
  | VBool true => lit "true"
  | VBool false => lit "false"
  | VNum n => number_to_string n
  | VStr s => s
  end.

(** [a || b] *)
Definition or_else (a b : value) : value := if truthy a then a else b.

(** ** normalizePhone (index.js, lines 103-114) *)

Definition normalizePhone (p : value) : value :=
  if negb (truthy p) then p
  else
    let s := trim (ToString p) in
    let s := remove_spaces s in
    let s := if startsWith (lit "+") s then slice1 s else s in
    let s := if startsWith (lit "0") s then lit "254" ++ slice1 s else s in
    let s :=
      if negb (startsWith (lit "254") s)
      then (if short_kenyan s then lit "254" ++ s else s)
      else s in
    VStr s.

(** ** Node's Buffer: UTF-8 and base64 *)

Definition high_surrogate (c : N) : bool := ((55296 <=? c) && (c <? 56320))%N.
Definition low_surrogate (c : N) : bool := ((56320 <=? c) && (c <? 57344))%N.

(** The UTF-8 bytes of one code point. *)
Definition utf8_point (c : N) : list N :=
  (if c <? 128 then [c]
   else if c <? 2048 then [192 + c / 64; 128 + c mod 64]
   else if c <? 65536 then [224 + c / 4096; 128 + (c / 64) mod 64; 128 + c mod 64]
   else [240 + c / 262144; 128 + (c / 4096) mod 64;
         128 + (c / 64) mod 64; 128 + c mod 64])%N.

(** [Buffer.from(s)]: a surrogate pair is one code point, a lone surrogate
    becomes U+FFFD. *)
Fixpoint utf8 (s : jsstring) : list N :=
  match s with
  | [] => []
  | c :: t =>
      if high_surrogate c then
        match t with
        | d :: t' =>
            if low_surrogate d
            then utf8_point (65536 + (c - 55296) * 1024 + (d - 56320))%N ++ utf8 t'
            else utf8_point 65533 ++ utf8 t
        | [] => utf8_point 65533
        end
      else if low_surrogate c then utf8_point 65533 ++ utf8 t
      else utf8_point c ++ utf8 t
  end.

Definition base64_digit (n : N) : N :=
  (if n <? 26 then 65 + n
   else if n <? 52 then 97 + (n - 26)
   else if n <? 62 then 48 + (n - 52)
   else if n =? 62 then 43 else 47)%N.

Fixpoint base64_bytes (l : list N) : jsstring :=
  match l with
  | a :: b :: c :: t =>
      [base64_digit (a / 4); base64_digit ((a mod 4) * 16 + b / 16);
       base64_digit ((b mod 16) * 4 + c / 64); base64_digit (c mod 64)]%N
      ++ base64_bytes t
  | [a; b] =>
      [base64_digit (a / 4); base64_digit ((a mod 4) * 16 + b / 16);
       base64_digit ((b mod 16) * 4); ch "="]%N
  | [a] =>
      [base64_digit (a / 4); base64_digit ((a mod 4) * 16); ch "="; ch "="]%N
  | [] => []
  end.

(** [Buffer.from(s).toString("base64")] *)
Definition base64 (s : jsstring) : jsstring := base64_bytes (utf8 s).

(** ** Configuration (index.js, lines 13-37) *)

(** The environment variables the program reads, and [MPESA_MOCK], the
    constant of line 22 ([true] when the variable reads "true" in any
    case). *)
Record config : Type := {
  CONSUMER_KEY : option jsstring;
  CONSUMER_SECRET : option jsstring;
  BUSINESS_SHORTCODE : option jsstring;
  MPESA_PASSKEY : option jsstring;
  CALLBACK_URL : option jsstring;
  MPESA_ENV : option jsstring;
  MPESA_MOCK : bool
}.

(** The truth value of an environment variable: set and not empty. *)
Definition set_env (v : option jsstring) : bool :=
  match v with
  | Some (_ :: _) => true
  | _ => false
  end.

(** An environment variable inside a template literal. *)
Definition tpl (v : option jsstring) : jsstring :=
  match v with
  | Some s => s
  | None => lit "undefined"
  end.

Definition baseURL (cfg : config) : jsstring :=
  match MPESA_ENV cfg with
  | Some e => if str_eqb e (lit "production")
              then lit "https://api.safaricom.co.ke"
              else lit "https://sandbox.safaricom.co.ke"
  | None => lit "https://sandbox.safaricom.co.ke"
  end.

(** ** Bodies, errors and the outside world *)

(** The [data] of an HTTP response: a JSON object with fields at the
    primitives, or a body that is no object. *)
Inductive body : Type :=
| BPrim (v : value)
| BObj (fields : list (jsstring * value)).

Definition truthy_body (b : body) : bool :=
  match b with
  | BPrim v => truthy v
  | BObj _ => true
  end.

Fixpoint lookup (k : jsstring) (o : list (jsstring * value)) : value :=
  match o with
  | [] => VUndefined
  | (k', v) :: o' => if str_eqb k k' then v else lookup k o'
  end.

(** [b.k] where [b] is neither [null] nor [undefined], for the property
    names the program reads (a primitive has none of them). *)
Definition field (b : body) (k : jsstring) : value :=
  match b with
  | BObj o => lookup k o
  | BPrim _ => VUndefined
  end.

(** [v === "s"] *)
Definition is_string (v : value) (s : jsstring) : bool :=
  match v with
  | VStr t => str_eqb t s
  | _ => false
  end.

(** [a || b] on bodies. *)
Definition or_body (a b : body) : body := if truthy_body a then a else b.

(** A thrown error: [err.response.data] when the error carries a response,
    and [err.message]. *)
Record error : Type := {
  err_response : option body;
  err_message : jsstring
}.

Definition TypeError (msg : jsstring) : error :=
  {| err_response := None; err_message := msg |}.

(** [err.response?.data] *)
Definition response_data (e : error) : body :=
  match err_response e with
  | Some d => d
  | None => BPrim VUndefined
  end.

(** The gateway payload (index.js, lines 122-134). *)
Record Payload : Type := {
  BusinessShortCode : option jsstring;
  Password : jsstring;
  Timestamp : jsstring;
  TransactionType : jsstring;
  Amount : value;
  PartyA : value;
  PartyB : option jsstring;
  PhoneNumber : value;
  CallBackURL : option jsstring;
  AccountReference : jsstring;
  TransactionDesc : jsstring
}.

(** An outbound request with its Authorization header, and what axios makes
    of it: the promise resolves with the data of a 2xx response or rejects. *)
Inductive request : Type :=
| Get (url authorization : jsstring)
| Post (url authorization : jsstring) (data : Payload).

Inductive reply : Type :=
| Resolve (data : body)
| Reject (e : error).

Inductive level : Type := Log | Warn | Error.

(** The world a handler runs in: the exchanges with the gateway so far, the
    console, and how often the clock was read. *)
Record world : Type := {
  exchanges : list (request * reply);
  console : list (level * list body);
  clock_reads : nat
}.

(** The gateway answers a request knowing every earlier exchange; the
    clock gives an ISO string at each reading. *)
Record environment : Type := {
  network : list (request * reply) -> request -> reply;
  clock : nat -> jsstring
}.

Inductive result (A : Type) : Type :=
| Ok (a : A)
| Throw (e : error).
Arguments Throw {A} e.

Definition IO (A : Type) : Type := world -> result A * world.

Definition ret {A} (a : A) : IO A := fun w => (Ok a, w).

Definition throw {A} (e : error) : IO A := fun w => (Throw e, w).

Definition bind {A B} (m : IO A) (k : A -> IO B) : IO B :=
  fun w =>
    match m w with
    | (Ok a, w') => k a w'
    | (Throw e, w') => (Throw e, w')
    end.

(** [try { m } catch (e) { h e }] *)
Definition try_catch {A} (m : IO A) (h : error -> IO A) : IO A :=
  fun w =>
    match m w with
    | (Ok a, w') => (Ok a, w')
    | (Throw e, w') => h e w'
    end.

Notation "x <- m ;; k" := (bind m (fun x => k))
  (at level 100, m at next level, right associativity).
Notation "m ;;; k" := (bind m (fun _ => k))
  (at level 100, right associativity).

Definition text (s : string) : body := BPrim (VStr (lit s)).

Definition console_write (l : level) (args : list body) : IO unit :=
  fun w =>
    (Ok tt, {| exchanges := exchanges w;
               console := console w ++ [(l, args)];
               clock_reads := clock_reads w |}).

(** [b.k]: a TypeError on [null] and [undefined]. *)
Definition read (b : body) (k : string) : IO value :=
  match b with
  | BPrim VUndefined =>
      throw (TypeError (lit "Cannot read properties of undefined (reading '"
                          ++ lit k ++ lit "')"))
  | BPrim VNull =>
      throw (TypeError (lit "Cannot read properties of null (reading '"
                          ++ lit k ++ lit "')"))
  | _ => ret (field b (lit k))
  end.

(** [v.slice(0, 6)] for the variable named [v]: among the primitives only
    a string has the method. *)
Definition slice_0_6 (variable : string) (v : value) : IO jsstring :=
  match v with
  | VStr s => ret (firstn 6 s)
  | _ => throw (TypeError (lit variable ++ lit ".slice is not a function"))
  end.

Section Handlers.

Variable cfg : config.
Variable env : environment.

(** [await axios.get(...)] and [await axios.post(...)]: the exchange is
    recorded, a rejection is thrown. *)
Definition axios (r : request) : IO body :=
  fun w =>
    let a := network env (exchanges w) r in
    let w' := {| exchanges := exchanges w ++ [(r, a)];
                 console := console w;
                 clock_reads := clock_reads w |} in
    match a with
    | Resolve d => (Ok d, w')
    | Reject e => (Throw e, w')
    end.

(** [new Date().toISOString()] *)
Definition now_ISO : IO jsstring :=
  fun w =>
    (Ok (clock env (clock_reads w)),
     {| exchanges := exchanges w;
        console := console w;
        clock_reads := S (clock_reads w) |}).

Definition token_request : request :=
  Get (baseURL cfg ++ lit "/oauth/v1/generate?grant_type=client_credentials")
      (lit "Basic " ++
       base64 (tpl (CONSUMER_KEY cfg) ++ lit ":" ++ tpl (CONSUMER_SECRET cfg))).

(** [error.response?.data?.error_description || error.response?.data
    || error.message] *)
Definition token_error_description (e : error) : body :=
  let described :=
    match response_data e with
    | BPrim VUndefined | BPrim VNull => VUndefined
    | d => field d (lit "error_description")
    end in
  if truthy described then BPrim described
  else or_body (response_data e) (BPrim (VStr (err_message e))).

(** ** getAccessToken (index.js, lines 44-75) *)

Definition getAccessToken : IO value :=
  if MPESA_MOCK cfg then ret (VStr (lit "mock-access-token"))
  else if negb (set_env (CONSUMER_KEY cfg)) || negb (set_env (CONSUMER_SECRET cfg))
  then
    console_write Error
      [text "Cannot fetch access token: missing CONSUMER_KEY or CONSUMER_SECRET"] ;;;
    ret VNull
  else
    try_catch
      (response <- axios token_request ;;
       console_write Log [text "Fetched access token successfully"] ;;;
       read response "access_token")
      (fun error =>
         console_write Error
           [text "Error fetching token:"; token_error_description error] ;;;
         ret VNull).

(** ** POST /api/pay (index.js, lines 78-197) *)

(** What a handler answers: the status and the JSON object it sends. *)
Record http_response : Type := {
  status : nat;
  success : bool;
  message : jsstring;
  details : option body;
  token : option jsstring
}.

Definition answer (st : nat) (ok : bool) (msg : string) : http_response :=
  {| status := st; success := ok; message := lit msg;
     details := None; token := None |}.

Definition answer_details (st : nat) (ok : bool) (msg : string) (d : body)
  : http_response :=
  {| status := st; success := ok; message := lit msg;
     details := Some d; token := None |}.

Definition answer_token (st : nat) (ok : bool) (msg : string) (t : jsstring)
  : http_response :=
  {| status := st; success := ok; message := lit msg;
     details := None; token := Some t |}.

(** The request body, destructured: [{ phone, amount, name }].  A request
    without a parsed body is the [None] of [api_pay] below. *)
Record pay_body : Type := {
  phone : value;
  amount : value;
  name : value
}.

(** [iso.replace(/[-T:\.Z]/g, "").slice(0, 14)] *)
Definition timestamp_of (iso : jsstring) : jsstring :=
  firstn 14
    (filter (fun c => negb ((c =? ch "-") || (c =? ch "T") || (c =? ch ":")
                            || (c =? ch ".") || (c =? ch "Z"))%N) iso).

Definition payload_of (req : pay_body) (timestamp : jsstring) : Payload :=
  let partyA := normalizePhone (phone req) in
  let phoneNumber := partyA in
  let password :=
    base64 (tpl (BUSINESS_SHORTCODE cfg) ++ tpl (MPESA_PASSKEY cfg) ++ timestamp) in
  {| BusinessShortCode := BUSINESS_SHORTCODE cfg;
     Password := password;
     Timestamp := timestamp;
     TransactionType := lit "CustomerPayBillOnline";
     Amount := amount req;
     PartyA := partyA;
     PartyB := BUSINESS_SHORTCODE cfg;
     PhoneNumber := phoneNumber;
     CallBackURL := CALLBACK_URL cfg;
     AccountReference := lit "MPESA_PAYMENT";
     TransactionDesc :=
       lit "Payment by " ++ ToString (or_else (name req) (VStr (lit "customer"))) |}.

(** [stkRequest(token)] for the payload built once by the handler. *)
Definition stkRequest (payload : Payload) (token : value) : IO body :=
  axios (Post (baseURL cfg ++ lit "/mpesa/stkpush/v1/processrequest")
              (lit "Bearer " ++ ToString token)
              payload).

(** The test of line 161 on [err.response?.data]. *)
Definition invalid_token (remote : body) : bool :=
  truthy_body remote &&
  (is_string (field remote (lit "errorCode")) (lit "404.001.03")
   || test_ci (lit "Invalid Access Token")
        (ToString (or_else (field remote (lit "errorMessage")) (VStr [])))).

(** [err.response?.data || err.message] *)
Definition failure_details (e : error) : body :=
  or_body (response_data e) (BPrim (VStr (err_message e))).

(** The test of line 183 on [response.data]. *)
Definition accepted (data : body) : bool :=
  truthy_body data && is_string (field data (lit "ResponseCode")) (lit "0").

Definition mock_response : body :=
  BObj [(lit "ResponseCode", VStr (lit "0"));
        (lit "CustomerMessage", VStr (lit "Success. Request accepted for processing"))].

Definition not_configured : http_response :=
  answer 500 false
    "Server not configured to fetch access token. Check environment variables.".

(** The handler.  The inner [try] either leaves a response in [response]
    ([inl]) or returns from the handler ([inr]). *)
Definition post_api_pay (req : pay_body) : IO http_response :=
  if negb (truthy (phone req)) || negb (truthy (amount req)) then
    ret (answer 400 false "Missing phone or amount in request body.")
  else if MPESA_MOCK cfg then
    console_write Log
      [text "MPESA_MOCK enabled - returning simulated STK success (no external call)"] ;;;
    ret (answer 200 true "STK Push sent to phone. (mock)")
  else
    try_catch
      (access_token <- getAccessToken ;;
       if negb (truthy access_token) then ret not_configured
       else
         try_catch
           (masked <- (if truthy access_token
                       then s <- slice_0_6 "access_token" access_token ;;
                            ret (s ++ lit "...")
                       else ret (lit "none")) ;;
            console_write Log [text "Access token (masked):"; BPrim (VStr masked)])
           (fun _ => ret tt) ;;;
         if negb (truthy access_token) then ret not_configured
         else
           iso <- now_ISO ;;
           let timestamp := timestamp_of iso in
           let payload := payload_of req timestamp in
           outcome <-
             try_catch
               (if MPESA_MOCK cfg then
                  console_write Log [text "Simulated STK Push response (mock)"] ;;;
                  ret (inl mock_response)
                else
                  response <- stkRequest payload access_token ;;
                  ret (inl response))
               (fun err =>
                  let remote := response_data err in
                  if invalid_token remote then
                    console_write Warn
                      [text "Invalid access token detected from M-PESA, attempting to refresh token and retry STK once"] ;;;
                    access_token <- getAccessToken ;;
                    if truthy access_token then
                      try_catch
                        (response <- stkRequest payload access_token ;;
                         ret (inl response))
                        (fun err2 =>
                           console_write Error
                             [text "STK retry failed:"; failure_details err2] ;;;
                           ret (inr (answer_details 502 false
                                       "STK request failed after token refresh"
                                       (failure_details err2))))
                    else
                      ret (inr (answer 502 false
                                  "Unable to refresh access token. Check credentials."))
                  else
                    console_write Error
                      [text "STK request error:"; failure_details err] ;;;
                    ret (inr (answer_details 502 false "STK request failed"
                                (failure_details err)))) ;;
           match outcome with
           | inr returned => ret returned
           | inl response =>
               console_write Log [text "STK Push response received"] ;;;
               if accepted response then
                 ret (answer 200 true "STK Push sent to phone.")
               else
                 ret (answer_details 400 false "Failed to send STK Push."
                        (or_body response (BPrim VNull)))
           end)
      (fun error =>
         console_write Error [text "M-PESA Error:"; failure_details error] ;;;
         ret (answer 500 false "Server error while processing payment.")).

(** The handler from [req.body]: when no body was parsed [req.body] is
    undefined and the destructuring of line 79, which stands before the
    [try], throws. *)
Definition api_pay (parsed : option pay_body) : IO http_response :=
  match parsed with
  | Some req => post_api_pay req
  | None =>
      throw (TypeError
        (lit "Cannot destructure property 'phone' of 'req.body' as it is undefined."))
  end.

(** ** GET /api/token (index.js, lines 200-211) *)

Definition get_api_token : IO http_response :=
  if MPESA_MOCK cfg then
    ret (answer_token 200 true "Fetched access token (mock)" (lit "mock-a..."))
  else
    try_catch
      (token <- getAccessToken ;;
       if negb (truthy token) then
         ret (answer 502 false "Unable to fetch access token. Check credentials.")
       else
         s <- slice_0_6 "token" token ;;
         ret (answer_token 200 true "Fetched access token" (s ++ lit "...")))
      (fun err =>
         ret (answer_details 500 false "Error fetching token"
                (or_body (BPrim (VStr (err_message err))) (BObj [])))).

End Handlers.

(** The normalizer as the specification words it, one rule after the other
    on the string of the input. *)
Definition rule_strip (s : jsstring) : jsstring :=
  filter (fun c => negb (is_space c)) s.

Definition rule_plus (s : jsstring) : jsstring :=
  match s with
  | c :: t => if (c =? ch "+")%N then t else s
  | [] => s
  end.

Definition rule_zero (s : jsstring) : jsstring :=
  match s with
  | c :: t => if (c =? ch "0")%N then lit "254" ++ t else s
  | [] => s
  end.

Definition rule_prefix (s : jsstring) : jsstring :=
  match s with
  | c :: t =>
      if (c =? ch "7")%N && (List.length t =? 8)%nat && forallb is_digit t
      then lit "254" ++ s else s
  | [] => s
  end.

Definition normalize_by_rule (s : jsstring) : jsstring :=
  rule_prefix (rule_zero (rule_plus (rule_strip s))).

(** A canonical number: 2547 and eight more digits. *)
Definition canonical (s : jsstring) : bool :=
  startsWith (lit "2547") s && (List.length s =? 12)%nat && forallb is_digit s.

(** White space is absent from a string. *)
Definition nospace (s : jsstring) : Prop := Forall (fun c => is_space c = false) s.

(** The three rewriting steps of the source, on a string without white space. *)
Definition steps (s : jsstring) : jsstring :=
  let s := if startsWith (lit "+") s then slice1 s else s in
  let s := if startsWith (lit "0") s then lit "254" ++ slice1 s else s in
  if negb (startsWith (lit "254") s)
  then (if short_kenyan s then lit "254" ++ s else s)
  else s.

(** ** Runs of the handlers: the vocabulary of the properties *)

(** The value [getAccessToken] makes of the reply to its request. *)
Definition token_of (a : reply) : value :=
  match a with
  | Resolve (BPrim VUndefined) | Resolve (BPrim VNull) => VNull
  | Resolve d => field d (lit "access_token")
  | Reject _ => VNull
  end.

(** The exchanges between two worlds of a run. *)
Definition during (w w' : world) : list (request * reply) :=
  skipn (List.length (exchanges w)) (exchanges w').

Definition credentials (cfg : config) : bool :=
  set_env (CONSUMER_KEY cfg) && set_env (CONSUMER_SECRET cfg).

Section Paths.

Variable cfg : config.
Variable req : pay_body.
Variable iso : jsstring.

(** The submission the handler makes with a token, at the clock reading
    [iso]. *)
Definition submission (tok : value) : request :=
  Post (baseURL cfg ++ lit "/mpesa/stkpush/v1/processrequest")
       (lit "Bearer " ++ ToString tok)
       (payload_of cfg req (timestamp_of iso)).

(** The answer to a submission that resolved with [d] (lines 183-192). *)
Definition submission_answer (d : body) : http_response :=
  if accepted d then answer 200 true "STK Push sent to phone."
  else answer_details 400 false "Failed to send STK Push." (or_body d (BPrim VNull)).

Definition validated : bool := truthy (phone req) && truthy (amount req).

(** The paths through the handler outside mock mode: the exchanges of the
    run and the answer. *)
Inductive pay_path : list (request * reply) -> http_response -> Prop :=
| path_missing :
    validated = false ->
    pay_path [] (answer 400 false "Missing phone or amount in request body.")
| path_unset :
    validated = true -> credentials cfg = false ->
    pay_path [] not_configured
| path_no_token a :
    validated = true -> credentials cfg = true ->
    truthy (token_of a) = false ->
    pay_path [(token_request cfg, a)] not_configured
| path_submitted a d :
    validated = true -> credentials cfg = true ->
    truthy (token_of a) = true ->
    pay_path [(token_request cfg, a); (submission (token_of a), Resolve d)]
             (submission_answer d)
| path_failed a e :
    validated = true -> credentials cfg = true ->
    truthy (token_of a) = true ->
    invalid_token (response_data e) = false ->
    pay_path [(token_request cfg, a); (submission (token_of a), Reject e)]
             (answer_details 502 false "STK request failed" (failure_details e))
| path_refresh_failed a e a' :
    validated = true -> credentials cfg = true ->
    truthy (token_of a) = true ->
    invalid_token (response_data e) = true ->
    truthy (token_of a') = false ->
    pay_path [(token_request cfg, a); (submission (token_of a), Reject e);
              (token_request cfg, a')]
             (answer 502 false "Unable to refresh access token. Check credentials.")
| path_resubmitted a e a' d :
    validated = true -> credentials cfg = true ->
    truthy (token_of a) = true ->
    invalid_token (response_data e) = true ->
    truthy (token_of a') = true ->
    pay_path [(token_request cfg, a); (submission (token_of a), Reject e);
              (token_request cfg, a'); (submission (token_of a'), Resolve d)]
             (submission_answer d)
| path_resubmission_failed a e a' e2 :
    validated = true -> credentials cfg = true ->
    truthy (token_of a) = true ->
    invalid_token (response_data e) = true ->
    truthy (token_of a') = true ->
    pay_path [(token_request cfg, a); (submission (token_of a), Reject e);
              (token_request cfg, a'); (submission (token_of a'), Reject e2)]
             (answer_details 502 false "STK request failed after token refresh"
                (failure_details e2)).

End Paths.

(** Reading a trace. *)

Definition is_get (x : request * reply) : bool :=
  match fst x with
  | Get _ _ => true
  | Post _ _ _ => false
  end.

(** The token fetches and the submissions among the exchanges of a run. *)
Definition fetches (tr : list (request * reply)) : list (request * reply) :=
  filter is_get tr.

Definition submissions (tr : list (request * reply)) : list (request * reply) :=
  filter (fun x => negb (is_get x)) tr.

(** The last exchange of a run. *)
Definition final_exchange (tr : list (request * reply)) : option (request * reply) :=
  hd_error (rev tr).

(** The answer after a resubmission that was replied to with [r]
    (lines 165-170 and 183-192). *)
Definition resubmission_answer (r : reply) : http_response :=
  match r with
  | Resolve d => submission_answer d
  | Reject e2 =>
      answer_details 502 false "STK request failed after token refresh"
        (failure_details e2)
  end.

(** ** Sample configurations, gateways and requests *)

(** Credentials configured, sandbox, no mock. *)
Definition sample_config : config :=
  {| CONSUMER_KEY := Some (lit "key");
     CONSUMER_SECRET := Some (lit "secret");
     BUSINESS_SHORTCODE := Some (lit "174379");
     MPESA_PASSKEY := Some (lit "passkey");
     CALLBACK_URL := Some (lit "https://example.org/mpesa/callback");
     MPESA_ENV := None;
     MPESA_MOCK := false |}.

Definition mock_config : config :=
  {| CONSUMER_KEY := None;
     CONSUMER_SECRET := None;
     BUSINESS_SHORTCODE := Some (lit "174379");
     MPESA_PASSKEY := Some (lit "passkey");
     CALLBACK_URL := Some (lit "https://example.org/mpesa/callback");
     MPESA_ENV := None;
     MPESA_MOCK := true |}.

(** The secret is missing. *)
Definition unset_config : config :=
  {| CONSUMER_KEY := Some (lit "key");
     CONSUMER_SECRET := None;
     BUSINESS_SHORTCODE := Some (lit "174379");
     MPESA_PASSKEY := Some (lit "passkey");
     CALLBACK_URL := Some (lit "https://example.org/mpesa/callback");
     MPESA_ENV := None;
     MPESA_MOCK := false |}.

(** A transport failure: the error carries no response. *)
Definition network_error : error :=
  {| err_response := None; err_message := lit "Network Error" |}.

(** The gateway's answer to a stale token. *)
Definition expired_error : error :=
  {| err_response :=
       Some (BObj [(lit "requestId", VStr (lit "1234"));
                   (lit "errorCode", VStr (lit "404.001.03"));
                   (lit "errorMessage", VStr (lit "Invalid Access Token"))]);
     err_message := lit "Request failed with status code 404" |}.

(** Another failure of the gateway. *)
Definition server_error : error :=
  {| err_response :=
       Some (BObj [(lit "errorCode", VStr (lit "500.001.1001"));
                   (lit "errorMessage", VStr (lit "Unable to lock subscriber"))]);
     err_message := lit "Request failed with status code 500" |}.

Definition token_body (t : string) : body :=
  BObj [(lit "access_token", VStr (lit t)); (lit "expires_in", VStr (lit "3599"))].

Definition code_body (c : string) : body :=
  BObj [(lit "ResponseCode", VStr (lit c));
        (lit "CustomerMessage", VStr (lit "message"))].

(** A gateway that answers the n-th request of a run with the n-th reply of
    a script and fails in transport afterwards; its clock moves between
    readings. *)
Definition scripted (script : list reply) : environment :=
  {| network := fun history _ =>
       nth (List.length history) script (Reject network_error);
     clock := fun n =>
       match n with
       | 0 => lit "2026-11-03T12:34:56.789Z"
       | _ => lit "2026-11-03T12:35:07.003Z"
       end |}.

Definition fresh : world :=
  {| exchanges := []; console := []; clock_reads := 0 |}.

Definition sample_request (a : value) : pay_body :=
  {| phone := VStr (lit "0712345678"); amount := a; name := VUndefined |}.

(** The token is good and the push is accepted. *)
Definition accepting_gateway : environment :=
  scripted [Resolve (token_body "token-1"); Resolve (code_body "0")].

(** The token is good and the push is refused with HTTP 200. *)
Definition refusing_gateway : environment :=
  scripted [Resolve (token_body "token-1"); Resolve (code_body "1")].

(** The first token is stale, the refresh works, the resubmission is
    accepted. *)
Definition retry_gateway : environment :=
  scripted [Resolve (token_body "stale-token"); Reject expired_error;
            Resolve (token_body "fresh-token"); Resolve (code_body "0")].

(** The first token is stale and the refresh fails in transport. *)
Definition refresh_fails_gateway : environment :=
  scripted [Resolve (token_body "stale-token"); Reject expired_error;
            Reject network_error].

(** The gateway cannot be reached at all. *)
Definition unreachable_gateway : environment := scripted [].

(** The handler on a sample request with amount [a], from a fresh world. *)
Definition sample_run (cfg : config) (env : environment) (a : value)
  : result http_response * world :=
  post_api_pay cfg env (sample_request a) fresh.

(** The exchanges of such a run. *)
Definition sample_trace (cfg : config) (env : environment) (a : value)
  : list (request * reply) :=
  during fresh (snd (sample_run cfg env a)).

(** ** Start-up (index.js, lines 1-41) *)

(** The variables the presence check of lines 25-28 visits, in its order,
    with what [process.env] holds for each. *)
Definition checked_variables (cfg : config) : list (string * option jsstring) :=
  [("CONSUMER_KEY"%string, CONSUMER_KEY cfg);
   ("CONSUMER_SECRET"%string, CONSUMER_SECRET cfg);
   ("BUSINESS_SHORTCODE"%string, BUSINESS_SHORTCODE cfg);
   ("MPESA_PASSKEY"%string, MPESA_PASSKEY cfg);
   ("CALLBACK_URL"%string, CALLBACK_URL cfg)].

(** The loop: [if (!process.env[v]) missingVars.push(v)]. *)
Fixpoint missing_among (vars : list (string * option jsstring)) : list jsstring :=
  match vars with
  | [] => []
  | (v, x) :: rest =>
      if negb (set_env x) then lit v :: missing_among rest
      else missing_among rest
  end.

Definition missingVars (cfg : config) : list jsstring :=
  missing_among (checked_variables cfg).

(** [l.join(sep)] *)
Fixpoint join (sep : jsstring) (l : list jsstring) : jsstring :=
  match l with
  | [] => []
  | x :: rest =>
      match rest with
      | [] => x
      | _ :: _ => x ++ sep ++ join sep rest
      end
  end.

(** What the module writes to the console when it is loaded (lines 3,
    29-31 and 39-41). *)
Definition startup (cfg : config) : IO unit :=
  console_write Log [text "Loaded environment variables (secrets hidden)"] ;;;
  (if (0 <? List.length (missingVars cfg))%nat then
     console_write Warn
       [text "Warning: Missing environment variables:";
        BPrim (VStr (join (lit ", ") (missingVars cfg)))]
   else ret tt) ;;;
  console_write Log
    [BPrim (VStr (lit "Running in "
                  ++ (if set_env (MPESA_ENV cfg) then tpl (MPESA_ENV cfg)
                      else lit "sandbox")
                  ++ lit " mode"))] ;;;
  console_write Log [BPrim (VStr (lit "Using base URL: " ++ baseURL cfg))] ;;;
  (if MPESA_MOCK cfg then
     console_write Log
       [BPrim (VStr (lit "MPESA_MOCK is enabled " ++ [8212%N]
                     ++ lit " running in simulated mode (no external calls)"))]
   else ret tt).

(** The URL a request goes to, and its Authorization header. *)
Definition url_of (r : request) : jsstring :=
  match r with
  | Get u _ => u
  | Post u _ _ => u
  end.

Definition authorization_of (r : request) : jsstring :=
  match r with
  | Get _ a => a
  | Post _ a _ => a
  end.

(** A string of decimal digits. *)
Definition digits (s : jsstring) : bool := forallb is_digit s.

(** The string of the input, white space removed and less one leading
    plus sign: what the rules on the prefix look at. *)
Definition unplussed (p : value) : jsstring :=
  let s := remove_spaces (ToString p) in
  if startsWith (lit "+") s then slice1 s else s.


(** The code units the timestamp expression deletes. *)
Definition separator (c : N) : bool :=
  ((c =? ch "-") || (c =? ch "T") || (c =? ch ":") || (c =? ch ".")
   || (c =? ch "Z"))%N.

(** The sample configuration in production, and one with other secrets. *)
Definition production_config : config :=
  {| CONSUMER_KEY := Some (lit "key");
     CONSUMER_SECRET := Some (lit "secret");
     BUSINESS_SHORTCODE := Some (lit "174379");
     MPESA_PASSKEY := Some (lit "passkey");
     CALLBACK_URL := Some (lit "https://example.org/mpesa/callback");
     MPESA_ENV := Some (lit "production");
     MPESA_MOCK := false |}.

Definition rotated_config : config :=
  {| CONSUMER_KEY := Some (lit "another-key");
     CONSUMER_SECRET := Some (lit "another-secret");
     BUSINESS_SHORTCODE := Some (lit "600000");
     MPESA_PASSKEY := Some (lit "another-passkey");
     CALLBACK_URL := Some (lit "https://example.net/hook");
     MPESA_ENV := None;
     MPESA_MOCK := false |}.

(** * Properties *)

(** ** Properties of the normalizer *)

Lemma remove_spaces_nospace s : nospace (remove_spaces s).
Proof.
  unfold nospace, remove_spaces. apply Forall_forall. intros c Hc.
  apply filter_In in Hc. destruct Hc as [_ Hc].
  now destruct (is_space c).
Qed.

Lemma nospace_remove_spaces s : nospace s -> remove_spaces s = s.
Proof.
  unfold remove_spaces. induction 1 as [|c t Hc _ IH]; cbn; [reflexivity|].
  now rewrite Hc, IH.
Qed.

Lemma remove_spaces_trimStart s : remove_spaces (trimStart s) = remove_spaces s.
Proof.
  unfold remove_spaces. induction s as [|c t IH]; cbn; [reflexivity|].
  destruct (is_space c) eqn:E; cbn; [exact IH | now rewrite E].
Qed.

Lemma remove_spaces_rev s : remove_spaces (rev s) = rev (remove_spaces s).
Proof.
  unfold remove_spaces. induction s as [|c t IH]; cbn; [reflexivity|].
  rewrite filter_app, IH. cbn.
  destruct (is_space c); cbn; [apply app_nil_r | reflexivity].
Qed.

(** [trim] before the global replacement changes nothing. *)
Lemma remove_spaces_trim s : remove_spaces (trim s) = remove_spaces s.
Proof.
  unfold trim.
  now rewrite remove_spaces_rev, remove_spaces_trimStart, remove_spaces_rev,
    rev_involutive, remove_spaces_trimStart.
Qed.

Lemma nospace_tl s : nospace s -> nospace (tl s).
Proof. destruct 1; cbn; [constructor | assumption]. Qed.

Lemma nospace_254 s : nospace s -> nospace (lit "254" ++ s).
Proof. intros H. repeat constructor. exact H. Qed.

Lemma normalizePhone_steps p :
  truthy p = true ->
  normalizePhone p = VStr (steps (remove_spaces (ToString p))).
Proof.
  intros H. unfold normalizePhone. rewrite H. cbn [negb].
  now rewrite remove_spaces_trim.
Qed.

Lemma steps_rule s : steps s = rule_prefix (rule_zero (rule_plus s)).
Proof.
  unfold steps, rule_plus, rule_zero, rule_prefix, short_kenyan, slice1.
  destruct s as [|c t]; [reflexivity|].
  change (startsWith (lit "+") (c :: t)) with ((ch "+" =? c)%N && true).
  rewrite andb_true_r, (N.eqb_sym (ch "+") c).
  destruct (N.eqb_spec c (ch "+")) as [->|Hplus].
  - cbn [tl]. destruct t as [|d u]; [reflexivity|].
    change (startsWith (lit "0") (d :: u)) with ((ch "0" =? d)%N && true).
    rewrite andb_true_r, (N.eqb_sym (ch "0") d).
    destruct (N.eqb_spec d (ch "0")) as [->|Hz]; [reflexivity|].
    destruct (startsWith (lit "254") (d :: u)) eqn:E; cbn [negb]; [|reflexivity].
    destruct (N.eqb_spec d (ch "7")) as [->|]; [discriminate E | reflexivity].
  - change (startsWith (lit "0") (c :: t)) with ((ch "0" =? c)%N && true).
    rewrite andb_true_r, (N.eqb_sym (ch "0") c).
    destruct (N.eqb_spec c (ch "0")) as [->|Hz]; [reflexivity|].
    destruct (startsWith (lit "254") (c :: t)) eqn:E; cbn [negb]; [|reflexivity].
    destruct (N.eqb_spec c (ch "7")) as [->|]; [discriminate E | reflexivity].
Qed.

Lemma startsWith_app p s : startsWith p (p ++ s) = true.
Proof. induction p as [|x p IH]; cbn; [reflexivity|]. now rewrite N.eqb_refl. Qed.

Lemma startsWith_prefix p q s :
  startsWith (p ++ q) s = true -> startsWith p s = true.
Proof.
  revert s. induction p as [|x p IH]; intros s H; [reflexivity|].
  destruct s as [|y s]; [discriminate H|].
  cbn [app startsWith] in *. apply andb_true_iff in H. destruct H as [H1 H2].
  rewrite H1. now apply IH.
Qed.

Lemma steps_254 s : startsWith (lit "254") s = true -> steps s = s.
Proof.
  intros H. unfold steps.
  destruct s as [|c t]; [discriminate H|].
  assert (Hc : c = ch "2").
  { pose proof H as H'.
    change (startsWith (lit "254") (c :: t))
      with ((ch "2" =? c)%N && startsWith (lit "54") t) in H'.
    apply andb_true_iff in H'. destruct H' as [H' _].
    apply N.eqb_eq in H'. now symmetry. }
  subst c. cbv beta zeta.
  change (startsWith (lit "+") (ch "2" :: t)) with false. cbv iota.
  change (startsWith (lit "0") (ch "2" :: t)) with false. cbv iota.
  now rewrite H.
Qed.

Lemma steps_fixed s :
  startsWith (lit "+") s = false ->
  startsWith (lit "0") s = false ->
  startsWith (lit "254") s = false ->
  short_kenyan s = false ->
  steps s = s.
Proof.
  intros H1 H2 H3 H4. unfold steps. rewrite H1, H2, H3. cbn [negb]. now rewrite H4.
Qed.

Lemma steps_nospace s : nospace s -> nospace (steps s).
Proof.
  intros H. unfold steps, slice1.
  repeat match goal with
  | |- context [if ?b then _ else _] => destruct b
  end; auto using nospace_tl, nospace_254.
Qed.

Lemma steps_after_plus s1 :
  startsWith (lit "+") s1 = false ->
  let s2 := if startsWith (lit "0") s1 then lit "254" ++ slice1 s1 else s1 in
  let r := if negb (startsWith (lit "254") s2)
           then (if short_kenyan s2 then lit "254" ++ s2 else s2) else s2 in
  steps r = r.
Proof.
  intros Hs1. cbv zeta.
  destruct (startsWith (lit "0") s1) eqn:E0.
  - rewrite startsWith_app. cbn [negb]. apply steps_254, startsWith_app.
  - destruct (startsWith (lit "254") s1) eqn:E254; cbn [negb].
    + now apply steps_254.
    + destruct (short_kenyan s1) eqn:Ek.
      * apply steps_254, startsWith_app.
      * now apply steps_fixed.
Qed.

Lemma steps_idempotent s :
  startsWith (lit "++") s = false -> steps (steps s) = steps s.
Proof.
  intros Hpp.
  apply (steps_after_plus (if startsWith (lit "+") s then slice1 s else s)).
  destruct (startsWith (lit "+") s) eqn:E; [|exact E].
  destruct s as [|c t]; [discriminate E|].
  change (startsWith (lit "+") (c :: t)) with ((ch "+" =? c)%N && true) in E.
  rewrite andb_true_r in E. apply N.eqb_eq in E. subst c.
  destruct t as [|d u]; [reflexivity | exact Hpp].
Qed.

Lemma normalizePhone_VStr_nospace r :
  nospace r -> normalizePhone (VStr r) = VStr (steps r).
Proof.
  intros H. destruct r as [|c t]; [reflexivity|].
  rewrite normalizePhone_steps by reflexivity.
  cbn [ToString]. now rewrite (nospace_remove_spaces H).
Qed.

Lemma canonical_254 s : canonical s = true -> startsWith (lit "254") s = true /\ nospace s.
Proof.
  unfold canonical. intros H.
  apply andb_true_iff in H. destruct H as [H Hd].
  apply andb_true_iff in H. destruct H as [H _]. split.
  - now apply (startsWith_prefix (lit "254") (lit "7")).
  - apply Forall_forall. intros c Hc.
    rewrite forallb_forall in Hd. specialize (Hd c Hc).
    unfold is_digit in Hd. apply andb_true_iff in Hd. destruct Hd as [L U].
    apply N.leb_le in L, U. unfold is_space.
    repeat match goal with
    | |- context [(?a <=? ?b)%N] => destruct (N.leb_spec a b)
    | |- context [(?a =? ?b)%N] => destruct (N.eqb_spec a b)
    end; cbn; try reflexivity; lia.
Qed.

Lemma getAccessToken_mock cfg env w :
  MPESA_MOCK cfg = true ->
  getAccessToken cfg env w = (Ok (VStr (lit "mock-access-token")), w).
Proof. intros H. unfold getAccessToken. now rewrite H. Qed.

Lemma getAccessToken_unset cfg env w :
  MPESA_MOCK cfg = false -> credentials cfg = false ->
  getAccessToken cfg env w =
  (Ok VNull,
   {| exchanges := exchanges w;
      console := console w ++
        [(Error, [text "Cannot fetch access token: missing CONSUMER_KEY or CONSUMER_SECRET"])];
      clock_reads := clock_reads w |}).
Proof.
  intros Hm Hc. unfold getAccessToken, credentials in *. rewrite Hm.
  rewrite <- negb_andb, Hc. reflexivity.
Qed.

Lemma getAccessToken_fetch cfg env w :
  MPESA_MOCK cfg = false -> credentials cfg = true ->
  let a := network env (exchanges w) (token_request cfg) in
  exists w',
    getAccessToken cfg env w = (Ok (token_of a), w') /\
    exchanges w' = exchanges w ++ [(token_request cfg, a)] /\
    clock_reads w' = clock_reads w.
Proof.
  intros Hm Hc a. unfold getAccessToken, credentials in *. rewrite Hm.
  rewrite <- negb_andb, Hc. cbn [negb].
  unfold try_catch, bind, axios. fold a.
  destruct a as [d|e]; cbn.
  - destruct d as [[| | | |]|o]; cbn; eexists; (split; [reflexivity|]); cbn; auto.
  - eexists; (split; [reflexivity|]); cbn; auto.
Qed.

#[local] Arguments lit : simpl never.
#[local] Arguments text : simpl never.
#[local] Arguments base64 : simpl never.
#[local] Arguments baseURL : simpl never.
#[local] Arguments ToString : simpl never.
#[local] Arguments normalizePhone : simpl never.
#[local] Arguments payload_of : simpl never.
#[local] Arguments timestamp_of : simpl never.
#[local] Arguments token_request : simpl never.
#[local] Arguments token_of : simpl never.
#[local] Arguments invalid_token : simpl never.
#[local] Arguments accepted : simpl never.
#[local] Arguments failure_details : simpl never.
#[local] Arguments answer : simpl never.
#[local] Arguments answer_details : simpl never.
#[local] Arguments answer_token : simpl never.
#[local] Arguments getAccessToken : simpl never.
#[local] Arguments submission : simpl never.

Ltac io_unfold :=
  unfold bind, try_catch, ret, throw, console_write, now_ISO, stkRequest, axios.

Ltac first_fetch :=
  let x := fresh "x" in
  let Hx := fresh "Hx" in
  intros x Hx; cbn [hd_error app] in Hx;
  first [discriminate Hx | injection Hx as <-; reflexivity].

Lemma post_api_pay_path cfg env req w :
  MPESA_MOCK cfg = false ->
  exists resp w' tr,
    post_api_pay cfg env req w = (Ok resp, w') /\
    exchanges w' = exchanges w ++ tr /\
    clock_reads w' <= S (clock_reads w) /\
    pay_path cfg req (clock env (clock_reads w)) tr resp /\
    (forall x, hd_error tr = Some x ->
       x = (token_request cfg, network env (exchanges w) (token_request cfg))).
Proof.
  intros Hm. unfold post_api_pay. rewrite Hm.
  destruct (validated req) eqn:Hv.
  2:{ unfold validated in Hv. rewrite <- negb_andb, Hv. cbn [negb].
      exists (answer 400 false "Missing phone or amount in request body."), w, [].
      rewrite app_nil_r. (split; [reflexivity|]); (split; [reflexivity|]).
      (split; [lia|]). split; [now constructor | first_fetch]. }
  pose proof Hv as Hv'. unfold validated in Hv'.
  rewrite <- negb_andb, Hv'. cbn [negb]. clear Hv'.
  destruct (credentials cfg) eqn:Hc.
  2:{ unfold try_catch at 1, bind at 1. rewrite getAccessToken_unset by assumption.
      cbn. eexists _, _, []. rewrite app_nil_r.
      (split; [reflexivity|]); (split; [reflexivity|]). cbn.
      (split; [lia|]). split; [now constructor | first_fetch]. }
  destruct (@getAccessToken_fetch cfg env w Hm Hc) as (w1 & Hget & Hex1 & Hck1).
  set (a := network env (exchanges w) (token_request cfg)) in *.
  unfold try_catch at 1, bind at 1. rewrite Hget.
  destruct (truthy (token_of a)) eqn:Htok; cbn [negb].
  2:{ eexists _, _, _. (split; [reflexivity|]); (split; [exact Hex1|]).
      (split; [lia|]). split; [now constructor | first_fetch]. }
  assert (Hlog : exists w2,
            try_catch
              (masked <- (s <- slice_0_6 "access_token" (token_of a);;
                          ret (s ++ lit "..."));;
               console_write Log [text "Access token (masked):"; BPrim (VStr masked)])
              (fun _ : error => ret tt) w1 = (Ok tt, w2)
            /\ exchanges w2 = exchanges w1 /\ clock_reads w2 = clock_reads w1).
  { destruct (token_of a); cbn; eexists; (split; [reflexivity|]); cbn; auto. }
  destruct Hlog as (w2 & Hlog & Hex2 & Hck2).
  unfold bind at 1. rewrite Hlog. clear Hlog.
  io_unfold. cbn. rewrite Hex2, Hex1, Hck2, Hck1.
  fold (submission cfg req (clock env (clock_reads w)) (token_of a)).
  destruct (network env _ (submission cfg req _ (token_of a))) as [d|e].
  { cbn. pose proof (path_submitted cfg req (clock env (clock_reads w)) a d Hv Hc Htok) as P.
    unfold submission_answer in P.
    destruct (accepted d); eexists _, _, _;
      (split; [reflexivity|]); cbn; rewrite <- app_assoc; cbn;
      (split; [reflexivity|]); (split; [lia|]); (split; [exact P | first_fetch]). }
  cbn. destruct (invalid_token (response_data e)) eqn:Einv.
  2:{ cbn. eexists _, _, _. (split; [reflexivity|]); cbn; rewrite <- app_assoc; cbn.
      (split; [reflexivity|]); (split; [lia|]).
      split; [now constructor | first_fetch]. }
  cbn.
  match goal with
  | |- context [getAccessToken cfg env ?W] =>
      destruct (@getAccessToken_fetch cfg env W Hm Hc) as (w3 & Hget3 & Hex3 & Hck3);
      rewrite Hget3; clear Hget3; cbn in Hex3, Hck3; cbn
  end.
  match type of Hex3 with
  | _ = _ ++ [(_, ?x)] => set (a' := x) in *
  end.
  destruct (truthy (token_of a')) eqn:Htok'.
  2:{ cbn. eexists _, _, _. (split; [reflexivity|]).
      rewrite Hex3, Hck3, <- !app_assoc. cbn.
      (split; [reflexivity|]); (split; [lia|]).
      split; [now constructor | first_fetch]. }
  cbn. fold (submission cfg req (clock env (clock_reads w)) (token_of a')).
  destruct (network env _ (submission cfg req _ (token_of a'))) as [d|e2].
  { cbn. pose proof (path_resubmitted cfg req (clock env (clock_reads w)) a e a' d
                       Hv Hc Htok Einv Htok') as P.
    unfold submission_answer in P.
    destruct (accepted d); eexists _, _, _;
      (split; [reflexivity|]); cbn; rewrite Hex3, Hck3, <- !app_assoc; cbn;
      (split; [reflexivity|]); (split; [lia|]); (split; [exact P | first_fetch]). }
  cbn. eexists _, _, _. (split; [reflexivity|]).
  cbn. rewrite Hex3, Hck3, <- !app_assoc. cbn.
  (split; [reflexivity|]); (split; [lia|]).
  split; [now constructor | first_fetch].
Qed.

Lemma during_app w w' tr : exchanges w' = exchanges w ++ tr -> during w w' = tr.
Proof.
  intros H. unfold during. rewrite H.
  rewrite skipn_app, skipn_all, Nat.sub_diag. reflexivity.
Qed.

Lemma is_get_token_request cfg a : is_get (token_request cfg, a) = true.
Proof. reflexivity. Qed.

Lemma is_get_submission cfg req iso tok r :
  is_get (submission cfg req iso tok, r) = false.
Proof. reflexivity. Qed.

Ltac trace_simpl :=
  unfold fetches, submissions, final_exchange;
  cbn [filter rev app hd_error tl];
  rewrite ?is_get_token_request, ?is_get_submission;
  cbn [negb filter hd_error tl List.length].

(** A run outside mock mode, with its path. *)
Lemma pay_run cfg env req w resp w' :
  MPESA_MOCK cfg = false ->
  post_api_pay cfg env req w = (Ok resp, w') ->
  pay_path cfg req (clock env (clock_reads w)) (during w w') resp /\
  clock_reads w' <= S (clock_reads w).
Proof.
  intros Hm Hrun.
  destruct (@post_api_pay_path cfg env req w Hm)
    as (resp0 & w0 & tr & E & Hex & Hck & P & _).
  rewrite E in Hrun. injection Hrun as -> ->.
  now rewrite (@during_app w w' tr Hex).
Qed.

(** The first exchange of a run is the token request with the reply of the
    gateway. *)
Lemma pay_run_first cfg env req w resp w' :
  MPESA_MOCK cfg = false ->
  post_api_pay cfg env req w = (Ok resp, w') ->
  forall x, hd_error (during w w') = Some x ->
    x = (token_request cfg, network env (exchanges w) (token_request cfg)).
Proof.
  intros Hm Hrun.
  destruct (@post_api_pay_path cfg env req w Hm)
    as (resp0 & w0 & tr & E & Hex & _ & _ & T).
  rewrite E in Hrun. injection Hrun as -> ->.
  now rewrite (@during_app w w' tr Hex).
Qed.

(** In mock mode a validated request is answered at once. *)
Lemma pay_mock cfg env req w :
  MPESA_MOCK cfg = true -> validated req = true ->
  post_api_pay cfg env req w =
  (Ok (answer 200 true "STK Push sent to phone. (mock)"),
   {| exchanges := exchanges w;
      console := console w ++
        [(Log, [text "MPESA_MOCK enabled - returning simulated STK success (no external call)"])];
      clock_reads := clock_reads w |}).
Proof.
  intros Hm Hv. unfold post_api_pay. unfold validated in Hv.
  rewrite <- negb_andb, Hv, Hm. reflexivity.
Qed.

Lemma pay_missing cfg env req w :
  validated req = false ->
  post_api_pay cfg env req w =
  (Ok (answer 400 false "Missing phone or amount in request body."), w).
Proof.
  intros Hv. unfold post_api_pay. unfold validated in Hv.
  rewrite <- negb_andb, Hv. reflexivity.
Qed.

(** The handler always answers. *)
Lemma pay_returns cfg env req w :
  exists resp w', post_api_pay cfg env req w = (Ok resp, w').
Proof.
  destruct (MPESA_MOCK cfg) eqn:Hm.
  - destruct (validated req) eqn:Hv.
    + eexists _, _. now apply pay_mock.
    + eexists _, _. now apply pay_missing.
  - destruct (@post_api_pay_path cfg env req w Hm) as (resp & w' & tr & E & _).
    now exists resp, w'.
Qed.

(** ** Properties of the handlers and of the normalizer *)

(** C1 (amended).  Outside mock mode no run fetches a token or submits more
    than twice.  When the first submission is rejected with a body that
    signals an invalid token, the token is fetched exactly once more; if
    that refresh yields a token there is exactly one resubmission, with the
    payload of the first attempt and the new token, and the answer is the
    one its reply determines; if the refresh yields no token there is no
    resubmission and the answer is 502.  When the first submission is
    rejected otherwise, no second token is fetched and nothing is
    resubmitted. *)
Theorem pay_retry_once cfg env req w :
  MPESA_MOCK cfg = false ->
  exists resp w',
  post_api_pay cfg env req w = (Ok resp, w') /\
  let tr := during w w' in
  List.length (fetches tr) <= 2 /\ List.length (submissions tr) <= 2 /\
  forall x e,
    hd_error (submissions tr) = Some (x, Reject e) ->
    if invalid_token (response_data e) then
      exists a a',
        fetches tr = [(token_request cfg, a); (token_request cfg, a')] /\
        if truthy (token_of a') then
          exists r,
            submissions tr =
              [(x, Reject e);
               (submission cfg req (clock env (clock_reads w)) (token_of a'), r)] /\
            resp = resubmission_answer r
        else
          submissions tr = [(x, Reject e)] /\
          resp = answer 502 false "Unable to refresh access token. Check credentials."
    else
      exists a,
        fetches tr = [(token_request cfg, a)] /\
        submissions tr = [(x, Reject e)] /\
        resp = answer_details 502 false "STK request failed" (failure_details e).
Proof.
  intros Hm. destruct (@pay_returns cfg env req w) as (resp & w' & Hrun).
  exists resp, w'. split; [exact Hrun|]. intros tr. subst tr.
  destruct (@pay_run cfg env req w resp w' Hm Hrun) as [P _].
  destruct P; trace_simpl.
  all: split; [lia|]; split; [lia|]; intros x0 e0 Hx; try discriminate Hx.
  all: injection Hx as <- <-.
  all: repeat match goal with H : invalid_token _ = _ |- _ => rewrite H; clear H end.
  - eexists. repeat split.
  - eexists _, _. split; [reflexivity|].
    match goal with H : truthy (token_of a') = _ |- _ => rewrite H end. now split.
  - eexists _, _. split; [reflexivity|].
    match goal with H : truthy (token_of a') = _ |- _ => rewrite H end.
    eexists. split; reflexivity.
  - eexists _, _. split; [reflexivity|].
    match goal with H : truthy (token_of a') = _ |- _ => rewrite H end.
    eexists. split; reflexivity.
Qed.

Ltac answers_differ H :=
  unfold submission_answer, not_configured, answer, answer_details in H;
  try match type of H with context [if ?b then _ else _] => destruct b end;
  solve [ apply (f_equal status) in H; cbn in H; discriminate H
        | apply (f_equal details) in H; cbn in H; discriminate H ].

(** C3 (amended).  Outside mock mode and past the presence check: the
    answer is 500 when the credentials are not configured and just as well
    when the first token request yields no token, a transport failure
    included; a rejected submission that ends the run, first or second, is
    answered 502 with the error's response body, or else its message, as
    details; a refresh that yields no token is answered 502 without
    details. *)
Theorem pay_failure_status cfg env req w :
  MPESA_MOCK cfg = false -> validated req = true ->
  exists resp w',
  post_api_pay cfg env req w = (Ok resp, w') /\
  let tr := during w w' in
  (credentials cfg = false -> tr = [] /\ resp = not_configured) /\
  (forall a, hd_error tr = Some (token_request cfg, a) ->
     truthy (token_of a) = false ->
     tr = [(token_request cfg, a)] /\ resp = not_configured) /\
  (forall e, hd_error tr = Some (token_request cfg, Reject e) ->
     status resp = 500 /\ details resp = None) /\
  (forall x e, final_exchange tr = Some (x, Reject e) ->
     is_get (x, Reject e) = false ->
     status resp = 502 /\ success resp = false /\
     details resp = Some (failure_details e)) /\
  (forall x a, final_exchange tr = Some (x, a) ->
     is_get (x, a) = true -> List.length tr = 3 ->
     resp = answer 502 false "Unable to refresh access token. Check credentials.").
Proof.
  intros Hm Hv. destruct (@pay_returns cfg env req w) as (resp & w' & Hrun).
  exists resp, w'. split; [exact Hrun|]. intros tr. subst tr.
  destruct (@pay_run cfg env req w resp w' Hm Hrun) as [P _].
  destruct P; trace_simpl; repeat split; intros;
    repeat match goal with
    | H : Some _ = Some _ |- _ => inversion H; subst; clear H
    | H : None = Some _ |- _ => discriminate H
    | H : truthy (token_of (Reject _)) = true |- _ => discriminate H
    end;
    try congruence; try discriminate; auto.
Qed.

Lemma validated_false req :
  validated req = false <->
  truthy (phone req) = false \/ truthy (amount req) = false.
Proof. unfold validated. apply andb_false_iff. Qed.


(** C5.  [getAccessToken] always returns.  In mock mode it returns the
    placeholder and leaves the world as it is; without one of the two
    credentials it returns [null] without any exchange; when the token
    request is rejected it writes the description to the error console and
    returns [null]; when it resolves with an object it returns that
    object's [access_token]. *)
Theorem getAccessToken_outcomes cfg env w :
  (exists v w', getAccessToken cfg env w = (Ok v, w')) /\
  (MPESA_MOCK cfg = true ->
   getAccessToken cfg env w = (Ok (VStr (lit "mock-access-token")), w)) /\
  (MPESA_MOCK cfg = false ->
   set_env (CONSUMER_KEY cfg) = false \/ set_env (CONSUMER_SECRET cfg) = false ->
   fst (getAccessToken cfg env w) = Ok VNull /\
   exchanges (snd (getAccessToken cfg env w)) = exchanges w) /\
  (MPESA_MOCK cfg = false -> credentials cfg = true ->
   forall e, network env (exchanges w) (token_request cfg) = Reject e ->
     fst (getAccessToken cfg env w) = Ok VNull /\
     exchanges (snd (getAccessToken cfg env w))
     = exchanges w ++ [(token_request cfg, Reject e)] /\
     console (snd (getAccessToken cfg env w))
     = console w ++
       [(Error, [text "Error fetching token:"; token_error_description e])]) /\
  (MPESA_MOCK cfg = false -> credentials cfg = true ->
   forall o, network env (exchanges w) (token_request cfg) = Resolve (BObj o) ->
     fst (getAccessToken cfg env w) = Ok (lookup (lit "access_token") o) /\
     exchanges (snd (getAccessToken cfg env w))
     = exchanges w ++ [(token_request cfg, Resolve (BObj o))]).
Proof.
  split; [|split; [|split; [|split]]].
  - destruct (MPESA_MOCK cfg) eqn:Hm.
    + eexists _, _. now apply getAccessToken_mock.
    + destruct (credentials cfg) eqn:Hc.
      * destruct (@getAccessToken_fetch cfg env w Hm Hc) as (w' & E & _).
        eexists _, _. exact E.
      * eexists _, _. now apply getAccessToken_unset.
  - apply getAccessToken_mock.
  - intros Hm Hc. rewrite getAccessToken_unset; [now split | assumption |].
    unfold credentials. apply andb_false_iff. exact Hc.
  - intros Hm Hc e He. unfold getAccessToken, credentials in *.
    rewrite Hm, <- negb_andb, Hc. cbn [negb].
    unfold try_catch, bind, axios. rewrite He. cbn. auto.
  - intros Hm Hc o Ho. unfold getAccessToken, credentials in *.
    rewrite Hm, <- negb_andb, Hc. cbn [negb].
    unfold try_catch, bind, axios. rewrite Ho. cbn. auto.
Qed.

Lemma get_api_token_string cfg env w t :
  MPESA_MOCK cfg = false -> credentials cfg = true ->
  token_of (network env (exchanges w) (token_request cfg)) = VStr t ->
  t <> [] ->
  fst (get_api_token cfg env w)
  = Ok (answer_token 200 true "Fetched access token" (firstn 6 t ++ lit "...")).
Proof.
  intros Hm Hc Ht Hne. unfold get_api_token. rewrite Hm.
  destruct (@getAccessToken_fetch cfg env w Hm Hc) as (w1 & Hget & _).
  unfold try_catch at 1, bind at 1. rewrite Hget, Ht.
  destruct t as [|c t]; [contradiction|]. reflexivity.
Qed.


Lemma not_accepted d :
  is_string (field d (lit "ResponseCode")) (lit "0") = false -> accepted d = false.
Proof. intros H. unfold accepted. rewrite H. apply andb_false_r. Qed.


(** C8 (amended).  In mock mode a request whose phone and amount are truthy
    is answered 200 with [success: true] at once: no exchange with the
    gateway, no reading of the clock, and the same whatever the gateway
    would do; and no request at all makes an exchange in mock mode. *)
Theorem pay_mock_short_circuit cfg env req w :
  MPESA_MOCK cfg = true ->
  (truthy (phone req) = true -> truthy (amount req) = true ->
   fst (post_api_pay cfg env req w)
   = Ok (answer 200 true "STK Push sent to phone. (mock)") /\
   status (answer 200 true "STK Push sent to phone. (mock)") = 200 /\
   success (answer 200 true "STK Push sent to phone. (mock)") = true /\
   clock_reads (snd (post_api_pay cfg env req w)) = clock_reads w /\
   forall env', post_api_pay cfg env' req w = post_api_pay cfg env req w) /\
  exchanges (snd (post_api_pay cfg env req w)) = exchanges w /\
  during w (snd (post_api_pay cfg env req w)) = [].
Proof.
  intros Hm. split.
  - intros Hp Ha.
    assert (Hv : validated req = true) by (unfold validated; now rewrite Hp, Ha).
    rewrite (@pay_mock cfg env req w Hm Hv). repeat split.
    intros env'. now rewrite (@pay_mock cfg env' req w Hm Hv).
  - destruct (validated req) eqn:Hv.
    + rewrite (@pay_mock cfg env req w Hm Hv). split; [reflexivity|].
      unfold during. cbn [snd exchanges]. apply skipn_all.
    + rewrite (@pay_missing cfg env req w Hv). split; [reflexivity|].
      unfold during. cbn [snd]. apply skipn_all.
Qed.

(** C10.  Outside mock mode the clock is read at most once in a run, and
    every submission of the run goes to the same URL with the payload built
    from that one reading: the same Timestamp and Password, the normalized
    phone, the amount and the description.  Only the Authorization header
    differs: it carries the token of the fetch just before the
    submission. *)
Theorem pay_payload_fixed cfg env req w :
  MPESA_MOCK cfg = false ->
  exists resp w',
  post_api_pay cfg env req w = (Ok resp, w') /\
  let tr := during w w' in
  let payload := payload_of cfg req (timestamp_of (clock env (clock_reads w))) in
  clock_reads w' <= S (clock_reads w) /\
  (forall u a p r, In (Post u a p, r) tr ->
     u = baseURL cfg ++ lit "/mpesa/stkpush/v1/processrequest" /\ p = payload) /\
  (forall u1 a1 p1 r1 u2 a2 p2 r2,
     In (Post u1 a1 p1, r1) tr -> In (Post u2 a2 p2, r2) tr ->
     u1 = u2 /\ p1 = p2) /\
  (forall i u a p r, nth_error tr (S i) = Some (Post u a p, r) ->
     exists ra, nth_error tr i = Some (token_request cfg, ra) /\
       a = lit "Bearer " ++ ToString (token_of ra)) /\
  Timestamp payload = timestamp_of (clock env (clock_reads w)) /\
  PartyA payload = normalizePhone (phone req) /\
  PhoneNumber payload = normalizePhone (phone req) /\
  Amount payload = amount req.
Proof.
  intros Hm. destruct (@pay_returns cfg env req w) as (resp & w' & Hrun).
  exists resp, w'. split; [exact Hrun|]. intros tr payload. subst tr payload.
  destruct (@pay_run cfg env req w resp w' Hm Hrun) as [P Hck].
  split; [exact Hck|].
  assert (Hin : forall u a p r, In (Post u a p, r) (during w w') ->
            u = baseURL cfg ++ lit "/mpesa/stkpush/v1/processrequest" /\
            p = payload_of cfg req (timestamp_of (clock env (clock_reads w)))).
  { intros u a p r Hin. destruct P; cbn [In] in Hin;
      repeat (destruct Hin as [Hin|Hin]; [inversion Hin; split; reflexivity|]);
      destruct Hin. }
  split; [exact Hin|]. split.
  { intros u1 a1 p1 r1 u2 a2 p2 r2 H1 H2.
    destruct (Hin _ _ _ _ H1) as [-> ->]. destruct (Hin _ _ _ _ H2) as [-> ->].
    split; reflexivity. }
  split; [|repeat split].
  intros i u a p r Hnth.
  destruct P; repeat (destruct i as [|i]; cbn [nth_error] in Hnth;
                      try discriminate Hnth);
    inversion Hnth; subst; eexists; split; reflexivity.
Qed.

(** The one call of the normalizer: every submission carries the phone of
    the request, which is truthy, normalized by the rules. *)
Lemma normalizePhone_called_on_truthy cfg env req w resp w' :
  MPESA_MOCK cfg = false ->
  post_api_pay cfg env req w = (Ok resp, w') ->
  forall u a p r, In (Post u a p, r) (during w w') ->
    truthy (phone req) = true /\
    PartyA p = VStr (normalize_by_rule (ToString (phone req))).
Proof.
  intros Hm Hrun u a p r Hin.
  destruct (@pay_run cfg env req w resp w' Hm Hrun) as [P _].
  assert (Hv : validated req = true) by (destruct P; (assumption || destruct Hin)).
  unfold validated in Hv. apply andb_true_iff in Hv. destruct Hv as [Hp _].
  split; [exact Hp|].
  assert (E : p = payload_of cfg req (timestamp_of (clock env (clock_reads w)))).
  { destruct P; cbn [In] in Hin;
      repeat (destruct Hin as [Hin|Hin]; [inversion Hin; reflexivity|]);
      destruct Hin. }
  subst p. unfold payload_of. cbn [PartyA].
  rewrite (normalizePhone_steps _ Hp), steps_rule. reflexivity.
Qed.

(** C2.  On every input it is given the normalizer returns the string the
    rules of the specification give, applied in order to the string of the
    input: the handler has answered 400 to a falsy phone (line 81) before
    its one call of the normalizer (line 116), so the input is truthy and
    the guard of line 104, which returns a falsy value as it is, does not
    fire.  In particular "0712345678", "+254712345678" and "712345678"
    normalize to "254712345678". *)
Theorem normalizePhone_by_rule (p : value) :
  (truthy p = true -> normalizePhone p = VStr (normalize_by_rule (ToString p))) /\
  (truthy p = false -> normalizePhone p = p) /\
  normalizePhone (VStr (lit "0712345678")) = VStr (lit "254712345678") /\
  normalizePhone (VStr (lit "+254712345678")) = VStr (lit "254712345678") /\
  normalizePhone (VStr (lit "712345678")) = VStr (lit "254712345678").
Proof.
  split; [|split; [|repeat split]].
  - intros H. rewrite (normalizePhone_steps _ H), steps_rule. reflexivity.
  - intros H. unfold normalizePhone. now rewrite H.
Qed.

(** C9 (amended).  Normalizing twice equals normalizing once on every input
    whose string, white space removed, does not begin with two plus signs;
    and a canonical "2547XXXXXXXX" string is returned unchanged. *)
Theorem normalizePhone_idempotent (p : value) :
  startsWith (lit "++") (remove_spaces (ToString p)) = false ->
  normalizePhone (normalizePhone p) = normalizePhone p /\
  (forall s, p = VStr s -> canonical s = true -> normalizePhone p = p).
Proof.
  intros Hpp. split.
  - destruct (truthy p) eqn:Ht.
    + rewrite (normalizePhone_steps _ Ht).
      rewrite normalizePhone_VStr_nospace
        by apply steps_nospace, remove_spaces_nospace.
      now rewrite steps_idempotent.
    + unfold normalizePhone at 2 3. rewrite Ht. cbn [negb].
      unfold normalizePhone. now rewrite Ht.
  - intros s -> Hs. destruct (canonical_254 _ Hs) as [H254 Hns].
    rewrite (normalizePhone_VStr_nospace Hns). now rewrite steps_254.
Qed.


(** ** Further properties of the normalizer *)

Lemma steps_kenyan s d :
  List.length d = 8 -> digits d = true ->
  s = lit "07" ++ d \/ s = lit "+07" ++ d \/ s = lit "7" ++ d \/
  s = lit "+7" ++ d \/ s = lit "2547" ++ d \/ s = lit "+2547" ++ d ->
  steps s = lit "2547" ++ d.
Proof.
  intros Hlen Hd Hs. unfold digits in Hd.
  assert (Hlen' : (List.length d =? 8)%nat = true) by now apply Nat.eqb_eq.
  unfold steps, short_kenyan, slice1.
  destruct Hs as [ -> | [ -> | [ -> | [ -> | [ -> | -> ] ] ] ] ]; unfold lit; cbn;
    rewrite ?Hlen', ?Hd; reflexivity.
Qed.

Lemma normalizePhone_kenyan_aux p d :
  truthy p = true ->
  List.length d = 8 -> digits d = true ->
  remove_spaces (ToString p) = lit "07" ++ d \/
  remove_spaces (ToString p) = lit "+07" ++ d \/
  remove_spaces (ToString p) = lit "7" ++ d \/
  remove_spaces (ToString p) = lit "+7" ++ d \/
  remove_spaces (ToString p) = lit "2547" ++ d \/
  remove_spaces (ToString p) = lit "+2547" ++ d ->
  normalizePhone p = VStr (lit "2547" ++ d).
Proof.
  intros Ht Hlen Hd Hs.
  rewrite (normalizePhone_steps _ Ht). f_equal. now apply steps_kenyan.
Qed.

(** X1.  A truthy phone whose string, white space aside, is a Kenyan mobile
    number in local ("07........"), short ("7........") or international
    ("2547........") notation, with or without a leading plus sign,
    normalizes to the canonical "2547........". *)
Theorem normalizePhone_kenyan p d :
  truthy p = true ->
  List.length d = 8 -> digits d = true ->
  remove_spaces (ToString p) = lit "07" ++ d \/
  remove_spaces (ToString p) = lit "+07" ++ d \/
  remove_spaces (ToString p) = lit "7" ++ d \/
  remove_spaces (ToString p) = lit "+7" ++ d \/
  remove_spaces (ToString p) = lit "2547" ++ d \/
  remove_spaces (ToString p) = lit "+2547" ++ d ->
  normalizePhone p = VStr (lit "2547" ++ d) /\
  canonical (lit "2547" ++ d) = true.
Proof.
  intros Ht Hlen Hd Hs. split; [now apply normalizePhone_kenyan_aux|].
  unfold canonical. rewrite startsWith_app.
  rewrite length_app, Hlen. cbn [andb]. unfold digits in Hd.
  change (forallb is_digit (lit "2547" ++ d)) with (forallb is_digit d).
  exact Hd.
Qed.


Lemma steps_length s : List.length (steps s) <= List.length s + 3.
Proof.
  unfold steps, slice1.
  assert (Htl : forall x : jsstring, List.length (tl x) <= List.length x)
    by (intros [|c x]; cbn; lia).
  pose proof (Htl s) as H1.
  pose proof (Htl (tl s)) as H2.
  assert (H0 : forall x : jsstring,
             startsWith (lit "0") x = true -> List.length (tl x) + 1 = List.length x).
  { intros [|c x] E; [discriminate E | cbn; lia]. }
  destruct (startsWith (lit "+") s);
    match goal with
    | |- context [startsWith (lit "0") ?x] =>
        destruct (startsWith (lit "0") x) eqn:E0;
        [ apply H0 in E0; rewrite startsWith_app; cbn [negb];
          rewrite length_app; change (List.length (lit "254")) with 3; lia
        | destruct (startsWith (lit "254") x); cbn [negb];
          [ lia
          | destruct (short_kenyan x) eqn:Ek;
            [ rewrite length_app; change (List.length (lit "254")) with 3;
              unfold short_kenyan in Ek; destruct x as [|c t]; [discriminate Ek|];
              apply andb_true_iff in Ek; destruct Ek as [Ek _];
              apply andb_true_iff in Ek; destruct Ek as [_ Ek];
              apply Nat.eqb_eq in Ek; cbn [List.length tl] in *; lia
            | lia ] ] ]
    end.
Qed.

(** X2.  Whatever the truthy input, the normalizer returns a string, the
    string holds no white space of any kind, and it is at most three code
    units longer than the string of the input. *)
Theorem normalizePhone_shape p :
  truthy p = true ->
  exists r,
    normalizePhone p = VStr r /\
    Forall (fun c => is_space c = false) r /\
    List.length r <= List.length (ToString p) + 3.
Proof.
  intros Ht. exists (steps (remove_spaces (ToString p))).
  split; [now apply normalizePhone_steps|]. split.
  - apply steps_nospace, remove_spaces_nospace.
  - pose proof (steps_length (remove_spaces (ToString p))) as H.
    pose proof (filter_length_le (fun c => negb (is_space c)) (ToString p)) as H'.
    unfold remove_spaces in *. lia.
Qed.

Lemma after_plus_prefix (u : jsstring) :
  let s2 := if startsWith (lit "0") u then lit "254" ++ slice1 u else u in
  let r := if negb (startsWith (lit "254") s2)
           then (if short_kenyan s2 then lit "254" ++ s2 else s2) else s2 in
  (startsWith (lit "254") r = true <->
   startsWith (lit "0") u = true \/ startsWith (lit "254") u = true \/
   short_kenyan u = true) /\
  (startsWith (lit "254") r = false -> r = u).
Proof.
  cbv zeta.
  destruct (startsWith (lit "0") u) eqn:E0.
  - rewrite startsWith_app. cbn [negb]. rewrite startsWith_app.
    split; [tauto | discriminate].
  - destruct (startsWith (lit "254") u) eqn:E254; cbn [negb].
    + rewrite E254. split; [tauto | discriminate].
    + destruct (short_kenyan u) eqn:Ek.
      * rewrite startsWith_app. split; [tauto | discriminate].
      * rewrite E254. split; [|reflexivity].
        split; [discriminate | intros [H|[H|H]]; discriminate H].
Qed.

(** X3.  The result of the normalizer on a truthy input starts with "254"
    exactly when the string of the input, white space and one leading plus
    sign aside, starts with "0" or with "254" or is a 7 followed by eight
    digits; in every other case the result is that string unchanged: no
    other number is given the country code. *)
Theorem normalizePhone_prefix p :
  truthy p = true ->
  exists r,
    normalizePhone p = VStr r /\
    (startsWith (lit "254") r = true <->
     startsWith (lit "0") (unplussed p) = true \/
     startsWith (lit "254") (unplussed p) = true \/
     short_kenyan (unplussed p) = true) /\
    (startsWith (lit "254") r = false -> r = unplussed p).
Proof.
  intros Ht. exists (steps (remove_spaces (ToString p))).
  split; [now apply normalizePhone_steps|].
  exact (after_plus_prefix (unplussed p)).
Qed.


(** ** The timestamp and the invalid-token test *)

Lemma digits_keep s :
  digits s = true -> filter (fun c => negb (separator c)) s = s.
Proof.
  unfold digits. induction s as [|c s IH]; intros H; [reflexivity|].
  cbn [forallb] in H. apply andb_true_iff in H. destruct H as [Hc Hs].
  cbn [filter]. rewrite (IH Hs).
  assert (E : separator c = false).
  { unfold is_digit in Hc. apply andb_true_iff in Hc. destruct Hc as [L U].
    apply N.leb_le in L, U. unfold separator, ch. cbn.
    repeat match goal with
    | |- context [(c =? ?b)%N] => destruct (N.eqb_spec c b); [lia|]
    end. reflexivity. }
  now rewrite E.
Qed.

(** X4.  On an ISO string of the shape toISOString gives for the years 0 to
    9999, "YYYY-MM-DDTHH:mm:ss.sssZ", the timestamp is the fourteen digits
    YYYYMMDDHHmmss: the milliseconds and every separator are gone. *)
Theorem timestamp_of_ISO (Y M D h m s ms : jsstring) :
  digits Y = true -> digits M = true -> digits D = true ->
  digits h = true -> digits m = true -> digits s = true -> digits ms = true ->
  List.length Y = 4 -> List.length M = 2 -> List.length D = 2 ->
  List.length h = 2 -> List.length m = 2 -> List.length s = 2 ->
  timestamp_of (Y ++ lit "-" ++ M ++ lit "-" ++ D ++ lit "T" ++ h ++ lit ":"
                ++ m ++ lit ":" ++ s ++ lit "." ++ ms ++ lit "Z")
  = Y ++ M ++ D ++ h ++ m ++ s.
Proof.
  intros HY HM HD Hh Hm Hs Hms LY LM LD Lh Lm Ls.
  unfold timestamp_of. fold separator.
  change (fun c : N => negb ((c =? ch "-") || (c =? ch "T") || (c =? ch ":")
                             || (c =? ch ".") || (c =? ch "Z"))%N)
    with (fun c : N => negb (separator c)).
  rewrite !filter_app.
  rewrite (@digits_keep Y HY), (@digits_keep M HM), (@digits_keep D HD),
    (@digits_keep h Hh), (@digits_keep m Hm), (@digits_keep s Hs),
    (@digits_keep ms Hms).
  change (filter (fun c => negb (separator c)) (lit "-")) with (@nil N).
  change (filter (fun c => negb (separator c)) (lit "T")) with (@nil N).
  change (filter (fun c => negb (separator c)) (lit ":")) with (@nil N).
  change (filter (fun c => negb (separator c)) (lit ".")) with (@nil N).
  change (filter (fun c => negb (separator c)) (lit "Z")) with (@nil N).
  cbn [app]. rewrite app_nil_r.
  replace (Y ++ M ++ D ++ h ++ m ++ s ++ ms)
    with ((Y ++ M ++ D ++ h ++ m ++ s) ++ ms) by now rewrite <- !app_assoc.
  rewrite firstn_app.
  replace (14 - List.length (Y ++ M ++ D ++ h ++ m ++ s)) with 0
    by (rewrite !length_app; lia).
  rewrite (@firstn_all2 _ 14 (Y ++ M ++ D ++ h ++ m ++ s))
    by (rewrite !length_app; lia).
  apply app_nil_r.
Qed.

Lemma In_firstn {A} (x : A) n (l : list A) : In x (firstn n l) -> In x l.
Proof.
  revert l. induction n as [|n IH]; intros [|y l] H; cbn in H; try contradiction.
  destruct H as [->|H]; [now left | right; now apply IH].
Qed.

(** X5.  Whatever string the clock gives, the timestamp has at most
    fourteen code units and none of them is one of [-], [T], [:], [.]
    and [Z]. *)
Theorem timestamp_of_bounds (iso : jsstring) :
  List.length (timestamp_of iso) <= 14 /\
  Forall (fun c => separator c = false) (timestamp_of iso).
Proof.
  unfold timestamp_of. split.
  - apply firstn_le_length.
  - apply Forall_forall. intros c Hc.
    apply In_firstn, filter_In in Hc. destruct Hc as [_ Hc].
    unfold separator. now destruct ((c =? ch "-") || (c =? ch "T") || (c =? ch ":")
                                    || (c =? ch ".") || (c =? ch "Z"))%N.
Qed.


Lemma str_eqb_eq a b : str_eqb a b = true <-> a = b.
Proof.
  revert b. induction a as [|x a IH]; intros [|y b]; cbn; split; intros H;
    try reflexivity; try discriminate H.
  - apply andb_true_iff in H. destruct H as [H1 H2].
    apply N.eqb_eq in H1. apply IH in H2. now subst.
  - injection H as -> ->. rewrite N.eqb_refl. now apply IH.
Qed.

Lemma is_string_eq v s : is_string v s = true <-> v = VStr s.
Proof.
  destruct v; cbn; split; intros H; try discriminate H.
  - apply str_eqb_eq in H. now subst.
  - injection H as ->. now apply str_eqb_eq.
Qed.

Lemma startsWith_ci_spec p s :
  startsWith_ci p s = true <->
  exists m post, s = m ++ post /\ map upcase m = map upcase p.
Proof.
  revert s. induction p as [|x p IH]; intros s.
  - split; [|reflexivity]. intros _. now exists [], s.
  - destruct s as [|y s]; cbn [startsWith_ci].
    + split; [discriminate|]. intros (m & post & E & Hm).
      destruct m; [discriminate Hm | discriminate E].
    + rewrite andb_true_iff, N.eqb_eq, IH. split.
      * intros (Hxy & m & post & -> & Hm). exists (y :: m), post.
        split; [reflexivity|]. cbn. now rewrite Hm, Hxy.
      * intros (m & post & E & Hm). destruct m as [|z m]; [discriminate Hm|].
        cbn in E, Hm. injection E as -> ->. injection Hm as Hz Hm.
        split; [now symmetry|]. now exists m, post.
Qed.

(** The test of a plain pattern with the [i] flag finds a substring that
    equals the pattern up to the case of the letters a-z. *)
Lemma test_ci_spec p s :
  test_ci p s = true <->
  exists pre m post, s = pre ++ m ++ post /\ map upcase m = map upcase p.
Proof.
  induction s as [|y s IH]; cbn [test_ci]; rewrite orb_true_iff, startsWith_ci_spec.
  - split.
    + intros [(m & post & E & Hm)|H]; [|discriminate H]. now exists [], m, post.
    + intros (pre & m & post & E & Hm). left.
      destruct pre; [|discriminate E]. now exists m, post.
  - rewrite IH. split.
    + intros [(m & post & E & Hm)|(pre & m & post & E & Hm)].
      * now exists [], m, post.
      * exists (y :: pre), m, post. split; [now rewrite E | exact Hm].
    + intros (pre & m & post & E & Hm). destruct pre as [|z pre].
      * left. now exists m, post.
      * right. cbn in E. injection E as -> ->. now exists pre, m, post.
Qed.

(** X6.  The retry is triggered by an error body exactly when the body is a
    JSON object whose [errorCode] is the string "404.001.03" or whose
    [errorMessage], as a string, contains "Invalid Access Token" in any
    case of its letters; a body that is no object (a text, a number) never
    triggers it, whatever it says. *)
Theorem invalid_token_signal (remote : body) :
  invalid_token remote = true <->
  exists o, remote = BObj o /\
    (lookup (lit "errorCode") o = VStr (lit "404.001.03") \/
     exists pre m post,
       ToString (or_else (lookup (lit "errorMessage") o) (VStr []))
       = pre ++ m ++ post /\
       map upcase m = map upcase (lit "Invalid Access Token")).
Proof.
  destruct remote as [v|o].
  - split.
    + intros H. unfold invalid_token in H. destruct (truthy_body (BPrim v));
        cbn in H; discriminate H.
    + intros (o & E & _). discriminate E.
  - unfold invalid_token. cbn [truthy_body andb field].
    rewrite orb_true_iff, is_string_eq, test_ci_spec. split.
    + intros H. now exists o.
    + intros (o' & E & H). injection E as <-. exact H.
Qed.


(** ** Further properties of the handlers *)

(** X7.  For a request with a parsed body whose fields are JSON primitives,
    and a gateway that settles every request, [POST /api/pay] answers with
    status 200, 400, 500 or 502; [success] is true exactly at 200; details
    come only with 400 and 502; and the only answer with status 500 is the
    one for a missing token: the handler's last resort, "Server error while
    processing payment.", is not reached.  Without a parsed body the
    handler gives no answer: the destructuring of line 79 throws outside
    the [try], with no exchange made. *)
Theorem pay_answer_table cfg env req w :
  (exists e, api_pay cfg env None w = (Throw e, w)) /\
  exists resp w',
    api_pay cfg env (Some req) w = (Ok resp, w') /\
    (status resp = 200 \/ status resp = 400 \/ status resp = 500 \/
     status resp = 502) /\
    (success resp = true <-> status resp = 200) /\
    (status resp = 500 -> resp = not_configured) /\
    (details resp <> None -> status resp = 400 \/ status resp = 502) /\
    token resp = None.
Proof.
  split; [eexists; reflexivity|].
  destruct (@pay_returns cfg env req w) as (resp & w' & Hrun).
  exists resp, w'. split; [exact Hrun|].
  assert (T : forall d, submission_answer d = answer 200 true "STK Push sent to phone."
                        \/ submission_answer d
                           = answer_details 400 false "Failed to send STK Push."
                               (or_body d (BPrim VNull))).
  { intros d. unfold submission_answer. destruct (accepted d); auto. }
  destruct (MPESA_MOCK cfg) eqn:Hm.
  - destruct (validated req) eqn:Hv.
    + rewrite (@pay_mock cfg env req w Hm Hv) in Hrun. injection Hrun as <- <-.
      cbn. repeat split; auto; try discriminate; tauto.
    + rewrite (@pay_missing cfg env req w Hv) in Hrun. injection Hrun as <- <-.
      cbn. repeat split; auto; try discriminate; tauto.
  - destruct (@pay_run cfg env req w resp w' Hm Hrun) as [P _].
    destruct P;
      try match goal with
      | |- context [submission_answer ?d] => destruct (T d) as [-> | ->]
      end;
      cbn; repeat split; auto; try discriminate; try tauto.
Qed.

Lemma pay_posts cfg env req w resp w' :
  MPESA_MOCK cfg = false ->
  post_api_pay cfg env req w = (Ok resp, w') ->
  forall u a p r, In (Post u a p, r) (during w w') ->
    u = baseURL cfg ++ lit "/mpesa/stkpush/v1/processrequest" /\
    p = payload_of cfg req (timestamp_of (clock env (clock_reads w))) /\
    exists tok, truthy tok = true /\ a = lit "Bearer " ++ ToString tok.
Proof.
  intros Hm Hrun u a p r Hin.
  destruct (@pay_run cfg env req w resp w' Hm Hrun) as [P _].
  destruct P; cbn [In] in Hin;
    repeat (destruct Hin as [Hin|Hin];
            [inversion Hin; subst;
             (split; [reflexivity|]); (split; [reflexivity|]);
             eexists; (split; [|reflexivity]); assumption|]);
    destruct Hin.
Qed.

(** X8.  Outside mock mode the exchanges of a run start with a token fetch
    and fetches and submissions alternate; every submission comes directly
    after a token fetch whose reply gave a truthy token, and it is
    authorized with "Bearer " and that very token: no submission is made
    with a null, undefined or empty token. *)
Theorem pay_submits_with_token cfg env req w :
  MPESA_MOCK cfg = false ->
  exists resp w',
    post_api_pay cfg env req w = (Ok resp, w') /\
    let tr := during w w' in
    (forall x, hd_error tr = Some x -> is_get x = true) /\
    (forall i x y, nth_error tr i = Some x -> nth_error tr (S i) = Some y ->
       is_get y = negb (is_get x)) /\
    (forall u a p r, In (Post u a p, r) tr ->
       exists i ra,
         nth_error tr i = Some (token_request cfg, ra) /\
         nth_error tr (S i) = Some (Post u a p, r) /\
         truthy (token_of ra) = true /\
         token_of ra <> VNull /\ token_of ra <> VUndefined /\
         token_of ra <> VStr [] /\
         a = lit "Bearer " ++ ToString (token_of ra)).
Proof.
  intros Hm. destruct (@pay_returns cfg env req w) as (resp & w' & Hrun).
  exists resp, w'. split; [exact Hrun|]. cbv zeta.
  destruct (@pay_run cfg env req w resp w' Hm Hrun) as [P _].
  split; [|split].
  - intros x Hx. destruct P; cbn in Hx; try discriminate Hx;
      injection Hx as <-; reflexivity.
  - intros i x y Hx Hy.
    destruct P;
      repeat (destruct i as [|i]; cbn [nth_error] in Hx, Hy;
              try discriminate Hx; try discriminate Hy);
      injection Hx as <-; injection Hy as <-; reflexivity.
  - assert (Hne : forall v : value, truthy v = true ->
                    v <> VNull /\ v <> VUndefined /\ v <> VStr []).
    { intros v Hv. repeat split; intros ->; discriminate Hv. }
    intros u a p r Hin.
    destruct P; cbn [In] in Hin;
      repeat (destruct Hin as [Hin|Hin]; [inversion Hin; subst; clear Hin|]);
      try destruct Hin;
      first
        [ exists 0; eexists; (split; [reflexivity|]); (split; [reflexivity|]);
          (split; [eassumption|]);
          repeat (split; [apply Hne; eassumption|]); reflexivity
        | exists 2; eexists; (split; [reflexivity|]); (split; [reflexivity|]);
          (split; [eassumption|]);
          repeat (split; [apply Hne; eassumption|]); reflexivity ].
Qed.

Lemma baseURL_cases cfg :
  (MPESA_ENV cfg = Some (lit "production") ->
   baseURL cfg = lit "https://api.safaricom.co.ke") /\
  (MPESA_ENV cfg <> Some (lit "production") ->
   baseURL cfg = lit "https://sandbox.safaricom.co.ke").
Proof.
  unfold baseURL. split.
  - intros ->. reflexivity.
  - intros H. destruct (MPESA_ENV cfg) as [e|]; [|reflexivity].
    destruct (str_eqb e (lit "production")) eqn:E; [|reflexivity].
    apply str_eqb_eq in E. subst e. now contradiction H.
Qed.

(** X9.  The production host is used exactly when MPESA_ENV is the string
    "production", letter for letter; with any other value, or none, the
    sandbox host is.  Every request of a run goes to that one host. *)
Theorem pay_requests_base_url cfg env req w :
  MPESA_MOCK cfg = false ->
  exists resp w',
    post_api_pay cfg env req w = (Ok resp, w') /\
    (forall x, In x (during w w') ->
       startsWith (baseURL cfg) (url_of (fst x)) = true) /\
    (MPESA_ENV cfg = Some (lit "production") ->
     baseURL cfg = lit "https://api.safaricom.co.ke") /\
    (MPESA_ENV cfg <> Some (lit "production") ->
     baseURL cfg = lit "https://sandbox.safaricom.co.ke").
Proof.
  intros Hm. destruct (@pay_returns cfg env req w) as (resp & w' & Hrun).
  exists resp, w'. split; [exact Hrun|]. split; [|apply baseURL_cases].
  destruct (@pay_run cfg env req w resp w' Hm Hrun) as [P _].
  intros x Hin.
  destruct P; cbn [In] in Hin;
    repeat (destruct Hin as [<-|Hin]; [apply startsWith_app|]);
    destruct Hin.
Qed.

(** X10.  Every payload that is submitted is consistent in itself: its
    Password is the base64 of short code, passkey and its own Timestamp;
    PartyA and PhoneNumber are one value; PartyB is the BusinessShortCode;
    the Timestamp has at most fourteen code units. *)
Theorem pay_payload_consistent cfg env req w :
  MPESA_MOCK cfg = false ->
  exists resp w',
    post_api_pay cfg env req w = (Ok resp, w') /\
    forall u a p r, In (Post u a p, r) (during w w') ->
      Password p = base64 (tpl (BUSINESS_SHORTCODE cfg) ++ tpl (MPESA_PASSKEY cfg)
                           ++ Timestamp p) /\
      PartyA p = PhoneNumber p /\
      PartyB p = BusinessShortCode p /\
      BusinessShortCode p = BUSINESS_SHORTCODE cfg /\
      CallBackURL p = CALLBACK_URL cfg /\
      List.length (Timestamp p) <= 14.
Proof.
  intros Hm. destruct (@pay_returns cfg env req w) as (resp & w' & Hrun).
  exists resp, w'. split; [exact Hrun|]. intros u a p r Hin.
  destruct (@pay_posts cfg env req w resp w' Hm Hrun u a p r Hin) as (_ & -> & _).
  cbn. repeat split. apply timestamp_of_bounds.
Qed.

(** X11.  Outside mock mode, when the phone of the request is a Kenyan
    mobile number in one of the notations of X1, every submission carries
    the canonical "2547........" as PartyA and as PhoneNumber. *)
Theorem pay_submits_canonical_phone cfg env req w d :
  MPESA_MOCK cfg = false ->
  truthy (phone req) = true ->
  List.length d = 8 -> digits d = true ->
  remove_spaces (ToString (phone req)) = lit "07" ++ d \/
  remove_spaces (ToString (phone req)) = lit "+07" ++ d \/
  remove_spaces (ToString (phone req)) = lit "7" ++ d \/
  remove_spaces (ToString (phone req)) = lit "+7" ++ d \/
  remove_spaces (ToString (phone req)) = lit "2547" ++ d \/
  remove_spaces (ToString (phone req)) = lit "+2547" ++ d ->
  exists resp w',
    post_api_pay cfg env req w = (Ok resp, w') /\
    forall u a p r, In (Post u a p, r) (during w w') ->
      PartyA p = VStr (lit "2547" ++ d) /\
      PhoneNumber p = VStr (lit "2547" ++ d).
Proof.
  intros Hm Ht Hlen Hd Hs.
  destruct (@pay_returns cfg env req w) as (resp & w' & Hrun).
  exists resp, w'. split; [exact Hrun|]. intros u a p r Hin.
  destruct (@pay_posts cfg env req w resp w' Hm Hrun u a p r Hin) as (_ & -> & _).
  unfold payload_of. cbn [PartyA PhoneNumber].
  rewrite (@normalizePhone_kenyan_aux (phone req) d Ht Hlen Hd Hs). now split.
Qed.


Lemma getAccessToken_frame cfg env w :
  exists tok w1,
    getAccessToken cfg env w = (Ok tok, w1) /\
    clock_reads w1 = clock_reads w /\
    (exchanges w1 = exchanges w \/
     exchanges w1
     = exchanges w ++ [(token_request cfg,
                        network env (exchanges w) (token_request cfg))]).
Proof.
  destruct (MPESA_MOCK cfg) eqn:Hm.
  - exists (VStr (lit "mock-access-token")), w.
    split; [now apply getAccessToken_mock | auto].
  - destruct (credentials cfg) eqn:Hc.
    + destruct (@getAccessToken_fetch cfg env w Hm Hc) as (w1 & E & Hex & Hck).
      eexists _, w1. split; [exact E | auto].
    + eexists _, _. split; [now apply getAccessToken_unset | cbn; auto].
Qed.

(** X12.  A call of [getAccessToken] makes at most one request, the token
    request, and never reads the clock; when the request resolves with an
    object, what it writes to the console is one fixed line, the same
    whatever token the object holds. *)
Theorem getAccessToken_discreet cfg env w :
  exists tok w1,
    getAccessToken cfg env w = (Ok tok, w1) /\
    clock_reads w1 = clock_reads w /\
    (during w w1 = [] \/
     during w w1 = [(token_request cfg,
                     network env (exchanges w) (token_request cfg))]) /\
    (MPESA_MOCK cfg = false -> credentials cfg = true ->
     forall o, network env (exchanges w) (token_request cfg) = Resolve (BObj o) ->
       console w1
       = console w ++ [(Log, [text "Fetched access token successfully"])]).
Proof.
  destruct (@getAccessToken_frame cfg env w) as (tok & w1 & E & Hck & Hex).
  exists tok, w1. split; [exact E|]. split; [exact Hck|]. split.
  - destruct Hex as [Hex|Hex].
    + left. apply during_app. now rewrite app_nil_r.
    + right. now apply during_app.
  - intros Hm Hc o Ho. revert E. unfold getAccessToken, credentials in *.
    rewrite Hm, <- negb_andb, Hc. cbn [negb].
    unfold try_catch, bind, axios. rewrite Ho. cbn.
    intros E. injection E as _ <-. reflexivity.
Qed.


(** ** Start-up *)

Ltac names_differ :=
  repeat match goal with
  | H : In _ (_ :: _) |- _ => destruct H as [H|H]
  | H : In _ [] |- _ => destruct H
  | H : lit _ = lit _ |- _ => vm_compute in H; discriminate H
  | H : _ :: _ = [] |- _ => discriminate H
  end.

Ltac name_listed := cbn [In]; repeat first [left; reflexivity | right].

(** X14.  The presence check at start-up lists exactly the variables among
    CONSUMER_KEY, CONSUMER_SECRET, BUSINESS_SHORTCODE, MPESA_PASSKEY and
    CALLBACK_URL that are unset or empty; it lists nothing exactly when all
    five are set, and then [getAccessToken] has its credentials. *)
Theorem missingVars_report cfg :
  (missingVars cfg = [] <->
   set_env (CONSUMER_KEY cfg) = true /\ set_env (CONSUMER_SECRET cfg) = true /\
   set_env (BUSINESS_SHORTCODE cfg) = true /\ set_env (MPESA_PASSKEY cfg) = true /\
   set_env (CALLBACK_URL cfg) = true) /\
  (In (lit "CONSUMER_KEY") (missingVars cfg) <-> set_env (CONSUMER_KEY cfg) = false) /\
  (In (lit "CONSUMER_SECRET") (missingVars cfg)
   <-> set_env (CONSUMER_SECRET cfg) = false) /\
  (In (lit "BUSINESS_SHORTCODE") (missingVars cfg)
   <-> set_env (BUSINESS_SHORTCODE cfg) = false) /\
  (In (lit "MPESA_PASSKEY") (missingVars cfg)
   <-> set_env (MPESA_PASSKEY cfg) = false) /\
  (In (lit "CALLBACK_URL") (missingVars cfg) <-> set_env (CALLBACK_URL cfg) = false) /\
  (missingVars cfg = [] -> credentials cfg = true).
Proof.
  unfold missingVars, checked_variables, credentials. cbn [missing_among].
  destruct (set_env (CONSUMER_KEY cfg)), (set_env (CONSUMER_SECRET cfg)),
    (set_env (BUSINESS_SHORTCODE cfg)), (set_env (MPESA_PASSKEY cfg)),
    (set_env (CALLBACK_URL cfg)); cbn [negb andb];
    repeat split; intros; names_differ;
    repeat match goal with H : _ /\ _ |- _ => destruct H end;
    try discriminate; try reflexivity; try name_listed.
Qed.

(** X15.  What is written to the console at start-up depends on the
    configuration only through which of the five variables are set, the
    environment selector and the mock flag: the keys, the passkey, the short
    code and the callback URL themselves never reach the console.  Start-up
    makes no request and does not read the clock. *)
Theorem startup_hides_secrets cfg1 cfg2 w :
  set_env (CONSUMER_KEY cfg1) = set_env (CONSUMER_KEY cfg2) ->
  set_env (CONSUMER_SECRET cfg1) = set_env (CONSUMER_SECRET cfg2) ->
  set_env (BUSINESS_SHORTCODE cfg1) = set_env (BUSINESS_SHORTCODE cfg2) ->
  set_env (MPESA_PASSKEY cfg1) = set_env (MPESA_PASSKEY cfg2) ->
  set_env (CALLBACK_URL cfg1) = set_env (CALLBACK_URL cfg2) ->
  MPESA_ENV cfg1 = MPESA_ENV cfg2 ->
  MPESA_MOCK cfg1 = MPESA_MOCK cfg2 ->
  startup cfg1 w = startup cfg2 w /\
  fst (startup cfg1 w) = Ok tt /\
  exchanges (snd (startup cfg1 w)) = exchanges w /\
  clock_reads (snd (startup cfg1 w)) = clock_reads w.
Proof.
  intros H1 H2 H3 H4 H5 He Hm.
  assert (Hmiss : missingVars cfg1 = missingVars cfg2).
  { unfold missingVars, checked_variables. cbn [missing_among].
    now rewrite H1, H2, H3, H4, H5. }
  assert (Hurl : baseURL cfg1 = baseURL cfg2) by (unfold baseURL; now rewrite He).
  split.
  - unfold startup. now rewrite Hmiss, Hurl, He, Hm.
  - unfold startup.
    destruct (0 <? List.length (missingVars cfg1))%nat, (MPESA_MOCK cfg1);
      repeat split.
Qed.

End Relay.

(** * Witnesses and counterexamples, at the integers *)

(** Names the answer and the final world of a sample run. *)
Ltac at_sample_run E Hrun :=
  match type of E with
  | post_api_pay ?cfg ?env (sample_request ?a) fresh = (Ok ?resp, ?w') =>
      let Hw := fresh "Hw" in
      let Hr := fresh "Hr" in
      assert (Hw : w' = snd (sample_run cfg env a))
        by (unfold sample_run; rewrite E; reflexivity);
      assert (Hr : Ok resp = fst (sample_run cfg env a))
        by (unfold sample_run; rewrite E; reflexivity);
      rewrite Hrun in Hr; cbn [fst] in Hr; injection Hr as Hr;
      subst w' resp; clear E
  end.

(** The retry theorem at a run with a stale first token, a refresh and an
    accepted resubmission: two fetches, two submissions, and the answer of
    the resubmission. *)
Lemma pay_retry_once_witness :
  MPESA_MOCK sample_config = false /\
  hd_error (submissions (sample_trace sample_config retry_gateway (VNum 10%Z)))
  = Some (submission sample_config (sample_request (VNum 10%Z))
            (lit "2026-11-03T12:34:56.789Z") (VStr (lit "stale-token")),
          Reject expired_error) /\
  invalid_token (number := Z) (response_data expired_error) = true /\
  List.length (fetches (sample_trace sample_config retry_gateway (VNum 10%Z))) = 2 /\
  List.length (submissions (sample_trace sample_config retry_gateway (VNum 10%Z))) = 2 /\
  fst (sample_run sample_config retry_gateway (VNum 10%Z))
  = Ok (resubmission_answer (Resolve (code_body "0"))).
Proof.
  assert (Hrun : sample_run sample_config retry_gateway (VNum 10%Z)
                 = (Ok (answer 200 true "STK Push sent to phone."),
                    snd (sample_run sample_config retry_gateway (VNum 10%Z))))
    by (vm_compute; reflexivity).
  assert (Hhd : hd_error (submissions
                  (sample_trace sample_config retry_gateway (VNum 10%Z)))
                = Some (submission sample_config (sample_request (VNum 10%Z))
                          (lit "2026-11-03T12:34:56.789Z") (VStr (lit "stale-token")),
                        Reject expired_error))
    by (vm_compute; reflexivity).
  assert (Hinv : invalid_token (number := Z) (response_data expired_error) = true)
    by (vm_compute; reflexivity).
  destruct (@pay_retry_once Z integer_numbers sample_config retry_gateway
              (sample_request (VNum 10%Z)) fresh eq_refl)
    as (resp & w' & E & H).
  at_sample_run E Hrun.
  cbv zeta in H. destruct H as (_ & _ & H).
  specialize (H _ _ Hhd). rewrite Hinv in H.
  destruct H as (a & a' & Hf & H).
  unfold sample_trace.
  split; [reflexivity|]. split; [exact Hhd|]. split; [exact Hinv|].
  rewrite Hf. split; [reflexivity|].
  destruct (truthy (token_of a')).
  - destruct H as (r & Hs & _). rewrite Hs. split; [reflexivity|].
    vm_compute. reflexivity.
  - destruct H as (_ & Hd). apply (f_equal status) in Hd. discriminate Hd.
Defined.

(** C1, as stated, fails: the first submission is rejected with the
    invalid-token signal and the refresh fails in transport; the token was
    fetched again but nothing is resubmitted. *)
Lemma pay_retry_no_resubmission :
  hd_error (submissions
    (sample_trace sample_config refresh_fails_gateway (VNum 10%Z)))
  = Some (submission sample_config (sample_request (VNum 10%Z))
            (lit "2026-11-03T12:34:56.789Z") (VStr (lit "stale-token")),
          Reject expired_error) /\
  invalid_token (number := Z) (response_data expired_error) = true /\
  List.length (fetches
    (sample_trace sample_config refresh_fails_gateway (VNum 10%Z))) = 2 /\
  List.length (tl (submissions
    (sample_trace sample_config refresh_fails_gateway (VNum 10%Z)))) <> 1 /\
  fst (sample_run sample_config refresh_fails_gateway (VNum 10%Z))
  = Ok (answer 502 false "Unable to refresh access token. Check credentials.").
Proof.
  repeat split; try (vm_compute; reflexivity).
  vm_compute. discriminate.
Qed.

(** The failure-status theorem where the gateway cannot be reached: the
    first token request fails in transport and the answer is 500. *)
Lemma pay_failure_status_witness :
  MPESA_MOCK sample_config = false /\
  validated (sample_request (VNum 10%Z)) = true /\
  hd_error (sample_trace sample_config unreachable_gateway (VNum 10%Z))
  = Some (token_request sample_config, Reject network_error) /\
  exists resp,
    fst (sample_run sample_config unreachable_gateway (VNum 10%Z)) = Ok resp /\
    status resp = 500 /\ details resp = None.
Proof.
  assert (Hrun : sample_run sample_config unreachable_gateway (VNum 10%Z)
                 = (Ok not_configured,
                    snd (sample_run sample_config unreachable_gateway (VNum 10%Z))))
    by (vm_compute; reflexivity).
  assert (Hhd : hd_error (sample_trace sample_config unreachable_gateway (VNum 10%Z))
                = Some (token_request sample_config, Reject network_error))
    by (vm_compute; reflexivity).
  destruct (@pay_failure_status Z integer_numbers sample_config unreachable_gateway
              (sample_request (VNum 10%Z)) fresh eq_refl eq_refl)
    as (resp & w' & E & H).
  at_sample_run E Hrun.
  cbv zeta in H. destruct H as (_ & _ & H & _).
  split; [reflexivity|]. split; [reflexivity|]. split; [exact Hhd|].
  eexists. split; [rewrite Hrun; reflexivity|]. exact (H _ Hhd).
Defined.

(** C3, as stated, fails: with the credentials configured, a token request
    that fails in transport is answered 500 without details, not 502; and a
    refresh that fails is answered 502 without details. *)
Lemma pay_token_transport_failure_500 :
  credentials sample_config = true /\
  validated (sample_request (VNum 10%Z)) = true /\
  sample_trace sample_config unreachable_gateway (VNum 10%Z)
  = [(token_request sample_config, Reject network_error)] /\
  (exists resp,
     fst (sample_run sample_config unreachable_gateway (VNum 10%Z)) = Ok resp /\
     status resp <> 502 /\ status resp = 500 /\ details resp = None) /\
  (exists resp,
     fst (sample_run sample_config refresh_fails_gateway (VNum 10%Z)) = Ok resp /\
     status resp = 502 /\ details resp = None).
Proof.
  split; [reflexivity|]. split; [reflexivity|].
  split; [vm_compute; reflexivity|]. split.
  - eexists. split; [vm_compute; reflexivity|].
    split; [vm_compute; discriminate|]. split; reflexivity.
  - eexists. split; [vm_compute; reflexivity|]. split; reflexivity.
Qed.



(** The token provider when the gateway cannot be reached: the request is
    rejected, the description is logged, the result is [null]. *)
Lemma getAccessToken_outcomes_witness :
  MPESA_MOCK sample_config = false /\
  credentials sample_config = true /\
  network (unreachable_gateway (number := Z)) (exchanges fresh)
    (token_request sample_config) = Reject network_error /\
  fst (getAccessToken (number := Z) sample_config unreachable_gateway fresh)
  = Ok VNull /\
  console (snd (getAccessToken (number := Z) sample_config unreachable_gateway fresh))
  = [(Error, [text "Error fetching token:"; BPrim (VStr (lit "Network Error"))])].
Proof.
  destruct (@getAccessToken_outcomes Z integer_numbers sample_config unreachable_gateway fresh)
    as (_ & _ & _ & H & _).
  destruct (H eq_refl eq_refl network_error eq_refl) as (Hv & _ & Hc).
  split; [reflexivity|]. split; [reflexivity|]. split; [reflexivity|].
  split; [exact Hv|]. rewrite Hc. reflexivity.
Defined.



(** Mock mode with the request of the specification. *)
Lemma pay_mock_short_circuit_witness :
  MPESA_MOCK mock_config = true /\
  truthy (phone (sample_request (VNum 10%Z))) = true /\
  truthy (amount (sample_request (VNum 10%Z))) = true /\
  fst (sample_run mock_config unreachable_gateway (VNum 10%Z))
  = Ok (answer 200 true "STK Push sent to phone. (mock)") /\
  sample_trace mock_config unreachable_gateway (VNum 10%Z) = [].
Proof.
  destruct (@pay_mock_short_circuit Z integer_numbers mock_config unreachable_gateway
              (sample_request (VNum 10%Z)) fresh eq_refl) as (H & _ & Hd).
  destruct (H eq_refl eq_refl) as (Hr & _).
  split; [reflexivity|]. split; [reflexivity|]. split; [reflexivity|].
  split; [exact Hr | exact Hd].
Defined.

(** C8, as stated, fails: in mock mode a request with a phone and the
    amount 0, present in the body, is answered 400, not 200. *)
Lemma pay_mock_amount_zero_rejected :
  MPESA_MOCK mock_config = true /\
  phone (sample_request (VNum 0%Z)) = VStr (lit "0712345678") /\
  amount (sample_request (VNum 0%Z)) = VNum 0%Z /\
  fst (sample_run mock_config unreachable_gateway (VNum 0%Z))
  = Ok (answer 400 false "Missing phone or amount in request body.") /\
  fst (sample_run mock_config unreachable_gateway (VNum 0%Z))
  <> Ok (answer 200 true "STK Push sent to phone. (mock)").
Proof.
  split; [reflexivity|]. split; [reflexivity|]. split; [reflexivity|].
  split; [vm_compute; reflexivity|]. vm_compute. discriminate.
Qed.

(** The payload theorem at the run with a retry: both submissions carry one
    payload although the clock moved, and the tokens differ. *)
Lemma pay_payload_fixed_witness :
  MPESA_MOCK sample_config = false /\
  (exists a1 a2 p1 p2 u1 u2 r1 r2,
     nth_error (sample_trace sample_config retry_gateway (VNum 10%Z)) 1
     = Some (Post u1 a1 p1, r1) /\
     nth_error (sample_trace sample_config retry_gateway (VNum 10%Z)) 3
     = Some (Post u2 a2 p2, r2) /\
     u1 = u2 /\ p1 = p2 /\
     Timestamp p1 = lit "20261103123456" /\
     a1 = lit "Bearer stale-token" /\ a2 = lit "Bearer fresh-token").
Proof.
  assert (Hrun : sample_run sample_config retry_gateway (VNum 10%Z)
                 = (Ok (answer 200 true "STK Push sent to phone."),
                    snd (sample_run sample_config retry_gateway (VNum 10%Z))))
    by (vm_compute; reflexivity).
  destruct (@pay_payload_fixed Z integer_numbers sample_config retry_gateway
              (sample_request (VNum 10%Z)) fresh eq_refl)
    as (resp & w' & E & H).
  at_sample_run E Hrun.
  cbv zeta in H. destruct H as (_ & _ & H & _).
  assert (H1 : nth_error (sample_trace sample_config retry_gateway (VNum 10%Z)) 1
               = Some (submission sample_config (sample_request (VNum 10%Z))
                         (lit "2026-11-03T12:34:56.789Z") (VStr (lit "stale-token")),
                       Reject expired_error))
    by (vm_compute; reflexivity).
  assert (H3 : nth_error (sample_trace sample_config retry_gateway (VNum 10%Z)) 3
               = Some (submission sample_config (sample_request (VNum 10%Z))
                         (lit "2026-11-03T12:34:56.789Z") (VStr (lit "fresh-token")),
                       Resolve (code_body "0")))
    by (vm_compute; reflexivity).
  split; [reflexivity|].
  unfold submission in H1, H3.
  destruct (H _ _ _ _ _ _ _ _ (nth_error_In _ _ H1) (nth_error_In _ _ H3)) as [Hu Hp].
  eexists _, _, _, _, _, _, _, _.
  split; [exact H1|]. split; [exact H3|]. split; [exact Hu|]. split; [exact Hp|].
  split; [vm_compute; reflexivity|]. split; vm_compute; reflexivity.
Defined.

(** The rule theorem at a number: 712345678 becomes "254712345678". *)
Lemma normalizePhone_by_rule_witness :
  truthy (VNum 712345678%Z) = true /\
  normalizePhone (VNum 712345678%Z)
  = VStr (normalize_by_rule (ToString (VNum 712345678%Z))) /\
  normalize_by_rule (ToString (VNum 712345678%Z)) = lit "254712345678".
Proof.
  split; [reflexivity|]. split.
  - exact (proj1 (normalizePhone_by_rule (VNum 712345678%Z)) eq_refl).
  - vm_compute. reflexivity.
Defined.

(** The idempotence theorem at a spaced number with one plus sign. *)
Lemma normalizePhone_idempotent_witness :
  startsWith (lit "++")
    (remove_spaces (ToString (number := Z) (VStr (lit " +254 712 345 678")))) = false /\
  normalizePhone (number := Z) (normalizePhone (VStr (lit " +254 712 345 678")))
  = normalizePhone (VStr (lit " +254 712 345 678")) /\
  normalizePhone (number := Z) (VStr (lit " +254 712 345 678"))
  = VStr (lit "254712345678").
Proof.
  split; [reflexivity|]. split.
  - exact (proj1 (@normalizePhone_idempotent Z integer_numbers (VStr (lit " +254 712 345 678")) eq_refl)).
  - vm_compute. reflexivity.
Defined.

(** C9, as stated, fails: of two leading plus signs each pass removes
    one. *)
Lemma normalizePhone_two_plus :
  normalizePhone (number := Z) (VStr (lit "++254712345678"))
  = VStr (lit "+254712345678") /\
  normalizePhone (number := Z) (normalizePhone (VStr (lit "++254712345678")))
  = VStr (lit "254712345678") /\
  normalizePhone (number := Z) (normalizePhone (VStr (lit "++254712345678")))
  <> normalizePhone (VStr (lit "++254712345678")).
Proof.
  split; [vm_compute; reflexivity|]. split; [vm_compute; reflexivity|].
  vm_compute. discriminate.
Qed.

(** * Witnesses of the further properties *)

(** A local number written with spaces. *)
Lemma normalizePhone_kenyan_witness :
  truthy (number := Z) (VStr (lit " 0712 345 678")) = true /\
  List.length (lit "12345678") = 8 /\ digits (lit "12345678") = true /\
  remove_spaces (ToString (number := Z) (VStr (lit " 0712 345 678")))
  = lit "07" ++ lit "12345678" /\
  normalizePhone (number := Z) (VStr (lit " 0712 345 678"))
  = VStr (lit "254712345678").
Proof.
  destruct (@normalizePhone_kenyan Z integer_numbers (VStr (lit " 0712 345 678"))
              (lit "12345678") eq_refl eq_refl eq_refl (or_introl eq_refl))
    as [H _].
  split; [reflexivity|]. split; [reflexivity|]. split; [reflexivity|].
  split; [reflexivity|]. exact H.
Defined.

(** The short number given as a number. *)
Lemma normalizePhone_shape_witness :
  truthy (VNum 712345678%Z) = true /\
  exists r, normalizePhone (VNum 712345678%Z) = VStr r /\
            Forall (fun c => is_space c = false) r /\ List.length r <= 12.
Proof.
  split; [reflexivity|].
  destruct (@normalizePhone_shape Z integer_numbers (VNum 712345678%Z) eq_refl)
    as (r & H1 & H2 & H3).
  exists r. repeat split; assumption.
Defined.

(** A nine-digit number that does not start with 7 is left as it is. *)
Lemma normalizePhone_prefix_witness :
  truthy (number := Z) (VStr (lit "112345678")) = true /\
  normalizePhone (number := Z) (VStr (lit "112345678")) = VStr (lit "112345678").
Proof.
  split; [reflexivity|].
  destruct (@normalizePhone_prefix Z integer_numbers (VStr (lit "112345678")) eq_refl)
    as (r & H1 & _ & H3).
  rewrite H1. f_equal. apply H3.
  assert (E : VStr (number := Z) r = VStr (lit "112345678"))
    by (rewrite <- H1; vm_compute; reflexivity).
  injection E as ->. reflexivity.
Defined.

(** A reading of the clock. *)
Lemma timestamp_of_ISO_witness :
  digits (lit "2026") = true /\ List.length (lit "2026") = 4 /\
  timestamp_of (lit "2026-11-03T12:34:56.789Z") = lit "20261103123456".
Proof.
  split; [reflexivity|]. split; [reflexivity|].
  exact (@timestamp_of_ISO (lit "2026") (lit "11") (lit "03") (lit "12") (lit "34")
           (lit "56") (lit "789") eq_refl eq_refl eq_refl eq_refl eq_refl eq_refl
           eq_refl eq_refl eq_refl eq_refl eq_refl eq_refl eq_refl).
Defined.

(** A message in lower case inside a sentence signals the invalid token. *)
Lemma invalid_token_signal_witness :
  lookup (number := Z) (lit "errorMessage")
    [(lit "errorMessage", VStr (lit "Error: invalid access token (expired)"))]
  = VStr (lit "Error: " ++ lit "invalid access token" ++ lit " (expired)") /\
  map upcase (lit "invalid access token") = map upcase (lit "Invalid Access Token") /\
  invalid_token (number := Z)
    (BObj [(lit "errorMessage", VStr (lit "Error: invalid access token (expired)"))])
  = true.
Proof.
  split; [reflexivity|]. split; [reflexivity|].
  apply (proj2 (@invalid_token_signal Z integer_numbers _)).
  eexists. split; [reflexivity|]. right.
  exists (lit "Error: "), (lit "invalid access token"), (lit " (expired)").
  split; reflexivity.
Defined.

(** The answer when the gateway cannot be reached. *)
Lemma pay_answer_table_witness :
  exists resp,
    fst (sample_run sample_config unreachable_gateway (VNum 10%Z)) = Ok resp /\
    status resp = 500 /\ resp = not_configured /\ success resp = false.
Proof.
  assert (Hrun : sample_run sample_config unreachable_gateway (VNum 10%Z)
                 = (Ok not_configured,
                    snd (sample_run sample_config unreachable_gateway (VNum 10%Z))))
    by (vm_compute; reflexivity).
  destruct (@pay_answer_table Z integer_numbers sample_config unreachable_gateway
              (sample_request (VNum 10%Z)) fresh)
    as (_ & resp & w' & E & _ & _ & H & _).
  unfold api_pay in E. at_sample_run E Hrun.
  exists not_configured. split; [rewrite Hrun; reflexivity|].
  split; [reflexivity|]. split; [exact (H eq_refl) | reflexivity].
Defined.

(** The run with a retry: the second submission follows the second fetch
    and carries its token. *)
Lemma pay_submits_with_token_witness :
  MPESA_MOCK sample_config = false /\
  nth_error (sample_trace sample_config retry_gateway (VNum 10%Z)) 3
  = Some (submission sample_config (sample_request (VNum 10%Z))
            (lit "2026-11-03T12:34:56.789Z") (VStr (lit "fresh-token")),
          Resolve (code_body "0")) /\
  exists i ra,
    nth_error (sample_trace sample_config retry_gateway (VNum 10%Z)) i
    = Some (token_request sample_config, ra) /\
    truthy (number := Z) (token_of ra) = true /\
    lit "Bearer fresh-token" = lit "Bearer " ++ ToString (token_of ra).
Proof.
  assert (Hrun : sample_run sample_config retry_gateway (VNum 10%Z)
                 = (Ok (answer 200 true "STK Push sent to phone."),
                    snd (sample_run sample_config retry_gateway (VNum 10%Z))))
    by (vm_compute; reflexivity).
  assert (H3 : nth_error (sample_trace sample_config retry_gateway (VNum 10%Z)) 3
               = Some (submission sample_config (sample_request (VNum 10%Z))
                         (lit "2026-11-03T12:34:56.789Z") (VStr (lit "fresh-token")),
                       Resolve (code_body "0")))
    by (vm_compute; reflexivity).
  destruct (@pay_submits_with_token Z integer_numbers sample_config retry_gateway
              (sample_request (VNum 10%Z)) fresh eq_refl)
    as (resp & w' & E & H).
  at_sample_run E Hrun. cbv zeta in H. destruct H as (_ & _ & H).
  split; [reflexivity|]. split; [exact H3|].
  unfold submission in H3.
  destruct (H _ _ _ _ (nth_error_In _ _ H3)) as (i & ra & H1 & _ & H4 & _ & _ & _ & H5).
  exists i, ra. split; [exact H1|]. split; [exact H4 | exact H5].
Defined.

(** In production every request goes to the production host. *)
Lemma pay_requests_base_url_witness :
  MPESA_MOCK production_config = false /\
  MPESA_ENV production_config = Some (lit "production") /\
  baseURL production_config = lit "https://api.safaricom.co.ke" /\
  forall x, In x (sample_trace production_config accepting_gateway (VNum 10%Z)) ->
    startsWith (lit "https://api.safaricom.co.ke") (url_of (fst x)) = true.
Proof.
  assert (Hrun : sample_run production_config accepting_gateway (VNum 10%Z)
                 = (Ok (answer 200 true "STK Push sent to phone."),
                    snd (sample_run production_config accepting_gateway (VNum 10%Z))))
    by (vm_compute; reflexivity).
  destruct (@pay_requests_base_url Z integer_numbers production_config
              accepting_gateway (sample_request (VNum 10%Z)) fresh eq_refl)
    as (resp & w' & E & H & Hp & _).
  at_sample_run E Hrun.
  split; [reflexivity|]. split; [reflexivity|]. split; [exact (Hp eq_refl)|].
  exact H.
Defined.

(** The payload of an accepted push. *)
Lemma pay_payload_consistent_witness :
  MPESA_MOCK sample_config = false /\
  exists u a p r,
    nth_error (sample_trace sample_config accepting_gateway (VNum 10%Z)) 1
    = Some (Post u a p, r) /\
    Timestamp p = lit "20261103123456" /\
    Password p = base64 (lit "174379" ++ lit "passkey" ++ lit "20261103123456") /\
    PartyA p = PhoneNumber p.
Proof.
  assert (Hrun : sample_run sample_config accepting_gateway (VNum 10%Z)
                 = (Ok (answer 200 true "STK Push sent to phone."),
                    snd (sample_run sample_config accepting_gateway (VNum 10%Z))))
    by (vm_compute; reflexivity).
  assert (H1 : nth_error (sample_trace sample_config accepting_gateway (VNum 10%Z)) 1
               = Some (submission sample_config (sample_request (VNum 10%Z))
                         (lit "2026-11-03T12:34:56.789Z") (VStr (lit "token-1")),
                       Resolve (code_body "0")))
    by (vm_compute; reflexivity).
  destruct (@pay_payload_consistent Z integer_numbers sample_config accepting_gateway
              (sample_request (VNum 10%Z)) fresh eq_refl)
    as (resp & w' & E & H).
  at_sample_run E Hrun.
  split; [reflexivity|]. unfold submission in H1.
  destruct (H _ _ _ _ (nth_error_In _ _ H1)) as (Hp & Ha & _).
  eexists _, _, _, _. split; [exact H1|].
  split; [vm_compute; reflexivity|]. split; [exact Hp | exact Ha].
Defined.

(** The phone of the sample request reaches the gateway in canonical form. *)
Lemma pay_submits_canonical_phone_witness :
  MPESA_MOCK sample_config = false /\
  remove_spaces (ToString (phone (sample_request (VNum 10%Z))))
  = lit "07" ++ lit "12345678" /\
  exists u a p r,
    nth_error (sample_trace sample_config accepting_gateway (VNum 10%Z)) 1
    = Some (Post u a p, r) /\
    PartyA p = VStr (lit "254712345678") /\
    PhoneNumber p = VStr (lit "254712345678").
Proof.
  assert (Hrun : sample_run sample_config accepting_gateway (VNum 10%Z)
                 = (Ok (answer 200 true "STK Push sent to phone."),
                    snd (sample_run sample_config accepting_gateway (VNum 10%Z))))
    by (vm_compute; reflexivity).
  assert (H1 : nth_error (sample_trace sample_config accepting_gateway (VNum 10%Z)) 1
               = Some (submission sample_config (sample_request (VNum 10%Z))
                         (lit "2026-11-03T12:34:56.789Z") (VStr (lit "token-1")),
                       Resolve (code_body "0")))
    by (vm_compute; reflexivity).
  destruct (@pay_submits_canonical_phone Z integer_numbers sample_config
              accepting_gateway (sample_request (VNum 10%Z)) fresh (lit "12345678")
              eq_refl eq_refl eq_refl eq_refl (or_introl eq_refl))
    as (resp & w' & E & H).
  at_sample_run E Hrun.
  split; [reflexivity|]. split; [reflexivity|]. unfold submission in H1.
  destruct (H _ _ _ _ (nth_error_In _ _ H1)) as (Ha & Hb).
  eexists _, _, _, _. split; [exact H1|]. split; [exact Ha | exact Hb].
Defined.

(** The console line of a successful fetch does not show the token. *)
Lemma getAccessToken_discreet_witness :
  MPESA_MOCK sample_config = false /\ credentials sample_config = true /\
  network (accepting_gateway (number := Z)) (exchanges fresh)
    (token_request sample_config) = Resolve (token_body "token-1") /\
  console (snd (getAccessToken (number := Z) sample_config accepting_gateway fresh))
  = [(Log, [text "Fetched access token successfully"])].
Proof.
  destruct (@getAccessToken_discreet Z integer_numbers sample_config
              accepting_gateway fresh) as (tok & w1 & E & _ & _ & H).
  split; [reflexivity|]. split; [reflexivity|]. split; [reflexivity|].
  rewrite E. exact (H eq_refl eq_refl _ eq_refl).
Defined.


(** With the secret missing the check lists CONSUMER_SECRET. *)
Lemma missingVars_report_witness :
  set_env (CONSUMER_SECRET unset_config) = false /\
  In (lit "CONSUMER_SECRET") (missingVars unset_config) /\
  missingVars unset_config = [lit "CONSUMER_SECRET"].
Proof.
  split; [reflexivity|]. split; [|vm_compute; reflexivity].
  destruct (missingVars_report unset_config) as (_ & _ & H & _).
  exact (proj2 H eq_refl).
Defined.

(** Two configurations with different secrets write the same lines. *)
Lemma startup_hides_secrets_witness :
  CONSUMER_SECRET sample_config <> CONSUMER_SECRET rotated_config /\
  MPESA_PASSKEY sample_config <> MPESA_PASSKEY rotated_config /\
  startup (number := Z) sample_config fresh = startup rotated_config fresh.
Proof.
  split; [vm_compute; discriminate|]. split; [vm_compute; discriminate|].
  exact (proj1 (@startup_hides_secrets Z sample_config rotated_config
                  fresh eq_refl eq_refl eq_refl eq_refl eq_refl eq_refl eq_refl)).
Defined.
